(** * Governance RPCs of the CVN layer: [addcvn] and [removecvn]

    A shallow embedding of [src/rpccvn.cpp]: the construction of a
    [CChainDataMsg] from the registries ([mapCVNs], [mapChainAdmins]) and the
    current dynamic chain parameters ([dynParams]), the parsing of the admin
    signature tokens, and the hand-off to [AddChainData] / [RelayChainData].

    C++ effects are modelled by a small state-and-exception monad: the state
    holds the message under construction (the functions of the file receive it
    by reference) and the trace of the calls made to the collaborators that
    live outside the file. *)

From Stdlib Require Import ZArith Strings.String Strings.Ascii Strings.Byte Bool Lia.
From stdpp Require Import base list.

Local Open Scope string_scope.
Local Open Scope list_scope.
Local Open Scope Z_scope.

(** ** Machine integers *)

Module Int.

Definition uint32_modulus : Z := 2 ^ 32.
Definition size_t_modulus : Z := 2 ^ 64.

(** Conversion of an integer value to [uint32_t]. *)
Definition to_uint32 (z : Z) : Z := z mod uint32_modulus.

(** [index++] on a [uint32_t]. *)
Definition uint32_incr (z : Z) : Z := to_uint32 (z + 1).

(** [a + b] and [a - b] on [size_t] (64 bits). *)
Definition size_t_add (a b : Z) : Z := (a + b) mod size_t_modulus.
Definition size_t_sub (a b : Z) : Z := (a - b) mod size_t_modulus.

Definition in_uint32 (z : Z) : bool := (0 <=? z) && (z <? uint32_modulus).

(** The values of an [int] (32 bits). *)
Definition in_int32 (z : Z) : bool := (- 2 ^ 31 <=? z) && (z <? 2 ^ 31).

End Int.

(** ** Data model *)

Definition uint256 := Z.
Definition bytes := list byte.

(** [CCvnInfo(nNodeId, nHeightAdded, vPubKey)] *)
Record CCvnInfo := mkCvnInfo {
  nNodeId : Z;
  nHeightAdded : Z;
  vPubKey : bytes
}.

(** [CChainAdmin(nAdminId, vPubKey)] *)
Record CChainAdmin := mkChainAdmin {
  nAdminId : Z;
  vAdminPubKey : bytes
}.

(** [CCvnSignature(signerId, vSignature)] *)
Record CCvnSignature := mkCvnSignature {
  nSignerId : Z;
  vSignature : bytes
}.

Record CDynamicChainParams := mkDynParams {
  nBlockSpacing : Z;
  nBlockSpacingGracePeriod : Z;
  nDustThreshold : Z;
  nMaxCvnSigners : Z;
  nMinCvnSigners : Z;
  nMinSuccessiveSignatures : Z
}.

Record CChainDataMsg := mkChainDataMsg {
  nPayload : Z;
  hashPrevBlock : uint256;
  vCvns : list CCvnInfo;
  vChainAdmins : list CChainAdmin;
  dynamicChainParams : CDynamicChainParams;
  vAdminSignatures : list CCvnSignature
}.

(** Value-initialised elements, as [std::vector::resize] creates them. *)
Definition CCvnInfo_default : CCvnInfo := mkCvnInfo 0 0 [].
Definition CChainAdmin_default : CChainAdmin := mkChainAdmin 0 [].
Definition CCvnSignature_default : CCvnSignature := mkCvnSignature 0 [].
Definition CDynamicChainParams_default : CDynamicChainParams :=
  mkDynParams 0 0 0 0 0 0.

(** Modelled from the spec: the declaration of [CChainDataMsg] (its
    constructor and the payload constants) is outside [rpccvn.cpp].  The spec
    has a new message start "with no payload flags" and the flags form a bit
    set of three independent members. *)
Definition CChainDataMsg_new : CChainDataMsg :=
  mkChainDataMsg 0 0 [] [] CDynamicChainParams_default [].

Definition CVN_PAYLOAD : Z := 1.
Definition CHAIN_ADMINS_PAYLOAD : Z := 2.
Definition CHAIN_PARAMETERS_PAYLOAD : Z := 4.

Definition has_flag (flag : Z) (m : CChainDataMsg) : bool :=
  negb (Z.land (nPayload m) flag =? 0).

Definition HasCvnInfo : CChainDataMsg -> bool := has_flag CVN_PAYLOAD.
Definition HasChainAdmins : CChainDataMsg -> bool := has_flag CHAIN_ADMINS_PAYLOAD.
Definition HasChainParameters : CChainDataMsg -> bool :=
  has_flag CHAIN_PARAMETERS_PAYLOAD.

(** Field updates of the message. *)
Definition set_nPayload (v : Z) (m : CChainDataMsg) : CChainDataMsg :=
  mkChainDataMsg v (hashPrevBlock m) (vCvns m) (vChainAdmins m)
    (dynamicChainParams m) (vAdminSignatures m).
Definition set_hashPrevBlock (v : uint256) (m : CChainDataMsg) : CChainDataMsg :=
  mkChainDataMsg (nPayload m) v (vCvns m) (vChainAdmins m)
    (dynamicChainParams m) (vAdminSignatures m).
Definition set_vCvns (v : list CCvnInfo) (m : CChainDataMsg) : CChainDataMsg :=
  mkChainDataMsg (nPayload m) (hashPrevBlock m) v (vChainAdmins m)
    (dynamicChainParams m) (vAdminSignatures m).
Definition set_vChainAdmins (v : list CChainAdmin) (m : CChainDataMsg)
  : CChainDataMsg :=
  mkChainDataMsg (nPayload m) (hashPrevBlock m) (vCvns m) v
    (dynamicChainParams m) (vAdminSignatures m).
Definition set_dynamicChainParams (v : CDynamicChainParams) (m : CChainDataMsg)
  : CChainDataMsg :=
  mkChainDataMsg (nPayload m) (hashPrevBlock m) (vCvns m) (vChainAdmins m)
    v (vAdminSignatures m).
Definition set_vAdminSignatures (v : list CCvnSignature) (m : CChainDataMsg)
  : CChainDataMsg :=
  mkChainDataMsg (nPayload m) (hashPrevBlock m) (vCvns m) (vChainAdmins m)
    (dynamicChainParams m) v.

(** ** Exceptions and results *)

(** The [runtime_error]s thrown in the file, by the place that throws them,
    and the [std::length_error] of a vector asked to grow beyond [max_size()]. *)
Inductive exn :=
| not_enough_signatures (got need : Z)
    (* "not enough signatures supplied (got %u signatures, but need at least %u to sign)" *)
| too_many_signatures (got most : Z)
    (* "too many signatures supplied %u (%u max)" *)
| invalid_signature_format (n : Z)
    (* "signature %u is of invalid format" *)
| invalid_public_key (s : string)
    (* " Invalid public key: " + params[2] *)
| cvn_id_not_found
    (* "CVN ID not found" *)
| admin_id_not_found
    (* "Admin ID not found" *)
| json_not_an_integer
    (* UniValue::get_int on a value that is no number *)
| json_integer_out_of_range
    (* UniValue::get_int on a number that is no [int]:
       "JSON integer out of range" *)
| length_error (requested : Z).

Inductive result (A : Type) :=
| Ok (a : A)
| Throw (e : exn)
| Undefined.   (* operator[] outside the vector *)
Arguments Ok {A} a.
Arguments Throw {A} e.
Arguments Undefined {A}.

(** ** std::vector *)

Module Vector.

(** No [std::vector] grows beyond [PTRDIFF_MAX] elements on a 64-bit
    platform, whatever the element type; failure of the allocation itself
    ([std::bad_alloc]) is not modelled. *)
Definition max_size : Z := 2 ^ 63 - 1.

(** [v.resize(n)] *)
Definition resize {A} (d : A) (n : Z) (v : list A) : result (list A) :=
  if max_size <? n then Throw (length_error n)
  else Ok (list.resize (Z.to_nat n) d v).

(** [v[i] = x] *)
Definition assign {A} (i : Z) (x : A) (v : list A) : result (list A) :=
  if (0 <=? i) && (i <? Z.of_nat (length v))
  then Ok (<[Z.to_nat i := x]> v)
  else Undefined.

End Vector.

(** ** std::map<uint32_t, T>

    The entries in iteration order, which is ascending key order. *)

Module Map.

Abbreviation t A := (list (Z * A)) (only parsing).

(** [m.size()] *)
Definition size {A} (m : t A) : Z := Z.of_nat (length m).

(** [m.count(k)] as a truth value *)
Definition count {A} (k : Z) (m : t A) : bool :=
  existsb (fun e => fst e =? k) m.

Fixpoint ascending_from (lo : Z) (keys : list Z) : bool :=
  match keys with
  | [] => true
  | k :: rest => (lo <=? k) && ascending_from (k + 1) rest
  end.

(** The invariant of the container: keys are [uint32_t] values, strictly
    ascending in iteration order. *)
Definition wf {A} (m : t A) : bool :=
  ascending_from 0 (map fst m) && forallb Int.in_uint32 (map fst m).

End Map.

(** ** The node: globals read by the file and functions defined outside it *)

Record Env := mkEnv {
  (** the current dynamic chain parameters, [dynParams] *)
  dynParams : CDynamicChainParams;
  (** the registries *)
  mapCVNs : Map.t CCvnInfo;
  mapChainAdmins : Map.t CChainAdmin;
  (** [chainActive.Tip()->GetBlockHash()] and [chainActive.Tip()->nHeight] *)
  tipHash : uint256;
  tipHeight : Z;
  IsInitialBlockDownload : bool;
  (** [ParseHex] of utilstrencodings *)
  ParseHex : string -> bytes;
  (** the value [ss << hex << s; ss >> n] stores in [n], a [uint32_t].  For
      a string the extraction stores nothing for (see [blank] below), the
      value stands for what the variable holds where the RPCs read it once
      per call ([nNodeId], [nAdminId]): they declare it without initialiser *)
  ReadHexUInt32 : string -> Z;
  (** what the storage of [signerId] (line 55) holds when the loop of
      [AddAdminSignatures] is entered: the variable has no initialiser *)
  signerId_on_entry : Z;
  (** [CPubKey(v).IsFullyValid()] *)
  IsFullyValid : bytes -> bool;
  (** the hash of the canonical encoding of the unsigned part of a message *)
  HashUnsigned :
    Z -> uint256 -> list CCvnInfo -> list CChainAdmin -> CDynamicChainParams ->
    uint256;
  CheckAdminSignatures : uint256 -> list CCvnSignature -> bool;
  AddChainData : CChainDataMsg -> bool
}.

(** Modelled from the spec: [CChainDataMsg::GetHash] is defined outside
    [rpccvn.cpp].  The spec makes it a deterministic hash over
    (payloadFlags, prevBlockHash, validators, chainAdmins, dynamicParams) that
    excludes adminSignatures. *)
Definition GetHash (E : Env) (m : CChainDataMsg) : uint256 :=
  HashUnsigned E (nPayload m) (hashPrevBlock m) (vCvns m) (vChainAdmins m)
    (dynamicChainParams m).

(** ** The monad *)

(** Calls that leave the file and matter to the protocol, in program order. *)
Inductive call :=
| Call_CheckAdminSignatures (h : uint256) (sigs : list CCvnSignature)
| Call_AddChainData (m : CChainDataMsg)
| Call_RelayChainData (m : CChainDataMsg).

Record state := mkState {
  msg : CChainDataMsg;
  trace : list call
}.

Definition M (A : Type) : Type := state -> result A * state.

Definition ret {A} (a : A) : M A := fun s => (Ok a, s).

Definition bind {A B} (c : M A) (k : A -> M B) : M B :=
  fun s =>
    match c s with
    | (Ok a, s') => k a s'
    | (Throw e, s') => (Throw e, s')
    | (Undefined, s') => (Undefined, s')
    end.

Definition throw {A} (e : exn) : M A := fun s => (Throw e, s).

Declare Scope cpp_scope.
Delimit Scope cpp_scope with cpp.
Notation "x <- c ;; k" := (bind c (fun x => k))
  (at level 100, c at next level, right associativity) : cpp_scope.
Notation "c ;; k" := (bind c (fun _ => k))
  (at level 100, right associativity) : cpp_scope.
Local Open Scope cpp_scope.

Definition get_msg : M CChainDataMsg := fun s => (Ok (msg s), s).

Definition modify_msg (f : CChainDataMsg -> CChainDataMsg) : M unit :=
  fun s => (Ok tt, mkState (f (msg s)) (trace s)).

Definition record (c : call) : M unit :=
  fun s => (Ok tt, mkState (msg s) (trace s ++ [c])).

(** A vector member of the message. *)
Record vfield (A : Type) := mkVfield {
  vget : CChainDataMsg -> list A;
  vset : list A -> CChainDataMsg -> CChainDataMsg;
  vdefault : A
}.
Arguments vget {A} _ _.
Arguments vset {A} _ _ _.
Arguments vdefault {A} _.

Definition msg_vCvns : vfield CCvnInfo :=
  mkVfield _ vCvns set_vCvns CCvnInfo_default.
Definition msg_vChainAdmins : vfield CChainAdmin :=
  mkVfield _ vChainAdmins set_vChainAdmins CChainAdmin_default.
Definition msg_vAdminSignatures : vfield CCvnSignature :=
  mkVfield _ vAdminSignatures set_vAdminSignatures CCvnSignature_default.

Definition lift_vector {A} (F : vfield A) (op : list A -> result (list A))
  : M unit :=
  fun s =>
    match op (vget F (msg s)) with
    | Ok v => (Ok tt, mkState (vset F v (msg s)) (trace s))
    | Throw e => (Throw e, s)
    | Undefined => (Undefined, s)
    end.

(** [msg.F.resize(n)] *)
Definition vresize {A} (F : vfield A) (n : Z) : M unit :=
  lift_vector F (Vector.resize (vdefault F) n).

(** [msg.F[i] = x] *)
Definition vassign {A} (F : vfield A) (i : Z) (x : A) : M unit :=
  lift_vector F (Vector.assign i x).

(** [BOOST_FOREACH(e, m) { msg.F[index++] = e.second; }], returning [index]. *)
Fixpoint copy_all {A} (F : vfield A) (m : Map.t A) (index : Z) : M Z :=
  match m with
  | [] => ret index
  | e :: rest =>
      vassign F index (snd e) ;;
      copy_all F rest (Int.uint32_incr index)
  end.

(** [BOOST_FOREACH(e, m) { if (e.first != id) msg.F[index++] = e.second; }] *)
Fixpoint copy_except {A} (F : vfield A) (id : Z) (m : Map.t A) (index : Z)
  : M Z :=
  match m with
  | [] => ret index
  | e :: rest =>
      if negb (fst e =? id) then
        vassign F index (snd e) ;;
        copy_except F id rest (Int.uint32_incr index)
      else copy_except F id rest index
  end.

(** ** boost::split(vTokens, s, boost::is_any_of(":"))

    Without token compression: every separator ends a token, so a string with
    [k] separators yields [k + 1] tokens, some of them possibly empty. *)
Fixpoint split (sep : ascii) (s : string) : list string :=
  match s with
  | EmptyString => [EmptyString]
  | String c rest =>
      if Ascii.eqb c sep then EmptyString :: split sep rest
      else match split sep rest with
           | tok :: toks => String c tok :: toks
           | [] => [String c EmptyString]
           end
  end.

Definition colon : ascii := ":"%char.

(** ** std::stringstream

    [ss << hex << str; ss >> n] first skips white space.  When the stream
    ends there, which is the case for the empty string and for a string of
    white space, the extraction fails before it stores anything, and [n]
    keeps the value it had. *)

(** [isspace] in the "C" locale. *)
Definition isspace (c : ascii) : bool :=
  let n := Z.of_N (N_of_ascii c) in
  (n =? 32) || ((9 <=? n) && (n <=? 13)).

Fixpoint blank (str : string) : bool :=
  match str with
  | EmptyString => true
  | String c rest => isspace c && blank rest
  end.

(** [s.c_str()] read as a C string: the characters before the first NUL. *)
Fixpoint c_str (s : string) : string :=
  match s with
  | EmptyString => EmptyString
  | String c rest =>
      if Ascii.eqb c Ascii.zero then EmptyString else String c (c_str rest)
  end.

(** ** UniValue, as far as the two RPCs read it *)

(** A JSON object whose values are integer literals, of any size: the pairs
    in the order written, duplicates kept. *)
Definition json_object := list (string * Z).

(** [o.getKeys()] *)
Definition getKeys (o : json_object) : list string := map fst o.

(** [o[key]]: the first pair with that key, or the null value. *)
Fixpoint find_value (o : json_object) (key : string) : option Z :=
  match o with
  | [] => None
  | (k, v) :: rest => if String.eqb k key then Some v else find_value rest key
  end.

(** [v.get_int()]: the number, when it is an [int]. *)
Definition get_int (v : option Z) : result Z :=
  match v with
  | Some z => if Int.in_int32 z then Ok z else Throw json_integer_out_of_range
  | None => Throw json_not_an_integer
  end.

(** All the values of the object are [int]s. *)
Definition int32_values (obj : json_object) : bool :=
  forallb (fun kv => Int.in_int32 (snd kv)) obj.

(** The same for the fifth argument of [addcvn], when there is one. *)
Definition dyn_int32 (d : option json_object) : bool :=
  match d with
  | Some obj => int32_values obj
  | None => true
  end.

(** What an RPC hands back. *)
Inductive field_value :=
| FId (n : Z)                        (* strprintf("0x%08x", n) *)
| FHex (b : bytes)                   (* HexStr(b) *)
| FAddress (pubkey : bytes)          (* CBitcoinAddress of pubKey.GetID() *)
| FParams (p : CDynamicChainParams). (* p.ToString() *)

Inductive rpc_value :=
| RString (s : string)
| RHash (h : uint256)                (* h.ToString() *)
| RObject (fields : list (string * field_value)).

Record addcvn_params := mkAddParams {
  add_type : string;                 (* params[0] *)
  add_id : string;                   (* params[1] *)
  add_pubkey : string;               (* params[2] *)
  add_sigs : list string;            (* params[3] *)
  add_dyn : option json_object       (* params[4]; [None] when absent (null) *)
}.

Record removecvn_params := mkRemoveParams {
  rem_type : string;                 (* params[0] *)
  rem_id : string;                   (* params[1] *)
  rem_sigs : list string             (* params[2] *)
}.

(** ** rpccvn.cpp *)

Section Rpc.

Context (E : Env).

Definition lift {A} (r : result A) : M A := fun s => (r, s).

Definition call_CheckAdminSignatures (h : uint256) (sigs : list CCvnSignature)
  : M bool :=
  record (Call_CheckAdminSignatures h sigs) ;;
  ret (CheckAdminSignatures E h sigs).

Definition call_AddChainData (m : CChainDataMsg) : M bool :=
  record (Call_AddChainData m) ;;
  ret (AddChainData E m).

Definition call_RelayChainData (m : CChainDataMsg) : M unit :=
  record (Call_RelayChainData m).

(** [ss << hex << str; ss >> n] on a variable [n] that holds [n0]: what [n]
    holds afterwards. *)
Definition extract_hex (str : string) (n0 : Z) : Z :=
  if blank str then n0 else ReadHexUInt32 E str.

(** The body of the loop of [AddAdminSignatures] up to the construction of
    the [CCvnSignature] (lines 48-60), for the token at index [i].
    [signerId] is declared without initialiser (line 55): [stale] is what
    its storage holds when the body is entered. *)
Definition parse_signature (stale : Z) (i : Z) (strSig : string)
  : result CCvnSignature :=
  let vTokens := split colon strSig in
  if negb (length vTokens =? 2)%nat then
    Throw (invalid_signature_format (Int.to_uint32 (i + 1)))
  else
    let signerId := extract_hex (c_str (nth 0 vTokens "")) stale in
    Ok (mkCvnSignature signerId (ParseHex E (nth 1 vTokens ""))).

(** [for (uint32_t i = ...; i < sigs.size(); i++)] over the tokens left.
    The storage of [signerId] is the same in every round: a round finds in
    it the id the round before left there. *)
Fixpoint parse_signatures (sigs : list string) (i : Z) (stale : Z) : M unit :=
  match sigs with
  | [] => ret tt
  | strSig :: rest =>
      sig <- lift (parse_signature stale i strSig) ;;
      vassign msg_vAdminSignatures i sig ;;
      parse_signatures rest (Int.uint32_incr i) (nSignerId sig)
  end.

Definition AddAdminSignatures (sigs : list string) : M bool :=
  let size := Z.of_nat (length sigs) in
  if size <? nMinCvnSigners (dynParams E) then
    throw (not_enough_signatures size (nMinCvnSigners (dynParams E)))
  else if nMaxCvnSigners (dynParams E) <? size then
    throw (too_many_signatures size (nMaxCvnSigners (dynParams E)))
  else
    vresize msg_vAdminSignatures size ;;
    parse_signatures sigs 0 (signerId_on_entry E) ;;
    m <- get_msg ;;
    call_CheckAdminSignatures (GetHash E m) (vAdminSignatures m).

Definition AddCvnInfoToMsg (nNodeId nHeightAdded : Z) (vPubKey : bytes)
  : M unit :=
  modify_msg (fun m => set_nPayload (Z.lor (nPayload m) CVN_PAYLOAD) m) ;;
  vresize msg_vCvns (Int.size_t_add (Map.size (mapCVNs E)) 1) ;;
  index <- copy_all msg_vCvns (mapCVNs E) 0 ;;
  let cvn := mkCvnInfo nNodeId nHeightAdded vPubKey in
  vassign msg_vCvns index cvn.

Definition AddChainAdminToMsg (nAdminId : Z) (vPubKey : bytes) : M unit :=
  modify_msg
    (fun m => set_nPayload (Z.lor (nPayload m) CHAIN_ADMINS_PAYLOAD) m) ;;
  vresize msg_vChainAdmins (Int.size_t_add (Map.size (mapChainAdmins E)) 1) ;;
  index <- copy_all msg_vChainAdmins (mapChainAdmins E) 0 ;;
  let admin := mkChainAdmin nAdminId vPubKey in
  vassign msg_vChainAdmins index admin.

(** The chain of [if (key == ...)] of [AddDynParamsToMsg]; the [int] of
    [get_int] is stored in a [uint32_t] member. *)
Definition assign_param (key : string) (v : Z) (p : CDynamicChainParams)
  : CDynamicChainParams :=
  let u := Int.to_uint32 v in
  if String.eqb key "nBlockSpacing" then
    mkDynParams u (nBlockSpacingGracePeriod p) (nDustThreshold p)
      (nMaxCvnSigners p) (nMinCvnSigners p) (nMinSuccessiveSignatures p)
  else if String.eqb key "nBlockSpacingGracePeriod" then
    mkDynParams (nBlockSpacing p) u (nDustThreshold p)
      (nMaxCvnSigners p) (nMinCvnSigners p) (nMinSuccessiveSignatures p)
  else if String.eqb key "nDustThreshold" then
    mkDynParams (nBlockSpacing p) (nBlockSpacingGracePeriod p) u
      (nMaxCvnSigners p) (nMinCvnSigners p) (nMinSuccessiveSignatures p)
  else if String.eqb key "nMaxCvnSigners" then
    mkDynParams (nBlockSpacing p) (nBlockSpacingGracePeriod p) (nDustThreshold p)
      u (nMinCvnSigners p) (nMinSuccessiveSignatures p)
  else if String.eqb key "nMinCvnSigners" then
    mkDynParams (nBlockSpacing p) (nBlockSpacingGracePeriod p) (nDustThreshold p)
      (nMaxCvnSigners p) u (nMinSuccessiveSignatures p)
  else if String.eqb key "nMinSuccessiveSignatures" then
    mkDynParams (nBlockSpacing p) (nBlockSpacingGracePeriod p) (nDustThreshold p)
      (nMaxCvnSigners p) (nMinCvnSigners p) u
  else p.

(** [BOOST_FOREACH(const string& key, paramsList)]; the log line evaluates
    [jsonParams[key].get_int()] for every key, known or not. *)
Fixpoint AddDynParamsToMsg_loop (jsonParams : json_object)
    (paramsList : list string) : M unit :=
  match paramsList with
  | [] => ret tt
  | key :: rest =>
      v <- lift (get_int (find_value jsonParams key)) ;;
      modify_msg (fun m =>
        set_dynamicChainParams (assign_param key v (dynamicChainParams m)) m) ;;
      AddDynParamsToMsg_loop jsonParams rest
  end.

Definition AddDynParamsToMsg (jsonParams : json_object) : M unit :=
  modify_msg
    (fun m => set_nPayload (Z.lor (nPayload m) CHAIN_PARAMETERS_PAYLOAD) m) ;;
  modify_msg (fun m =>
    set_dynamicChainParams
      (mkDynParams (nBlockSpacing (dynParams E))
         (nBlockSpacingGracePeriod (dynParams E))
         (nDustThreshold (dynParams E))
         (nMaxCvnSigners (dynParams E))
         (nMinCvnSigners (dynParams E))
         (nMinSuccessiveSignatures (dynParams E))) m) ;;
  AddDynParamsToMsg_loop jsonParams (getKeys jsonParams).

Definition wait_for_download : string :=
  "wait for block chain download to finish".

Definition is_empty {A} (l : list A) : bool :=
  match l with [] => true | _ => false end.

(** [params[4].isNull()] *)
Definition isNull {A} (v : option A) : bool :=
  match v with None => true | Some _ => false end.

Definition addcvn (params : addcvn_params) : M rpc_value :=
  let fAddCvn := negb (String.eqb (add_type params) "a") in
  let nNodeId := ReadHexUInt32 E (add_id params) in
  let vPubKey := ParseHex E (add_pubkey params) in
  let valid := IsFullyValid E vPubKey in
  if negb valid && isNull (add_dyn params) then
    throw (invalid_public_key (add_pubkey params))
  else
    let sigs := add_sigs params in
    (* CChainDataMsg msg; *)
    modify_msg (fun _ => CChainDataMsg_new) ;;
    modify_msg (set_hashPrevBlock (tipHash E)) ;;
    (if valid then
       if fAddCvn then
         AddCvnInfoToMsg nNodeId (Int.to_uint32 (tipHeight E + 1)) vPubKey
       else AddChainAdminToMsg nNodeId vPubKey
     else ret tt) ;;
    (match add_dyn params with
     | Some obj =>
         if negb (is_empty (getKeys obj)) then AddDynParamsToMsg obj else ret tt
     | None => ret tt
     end) ;;
    if is_empty sigs then
      m <- get_msg ;; ret (RHash (GetHash E m))
    else
      ok <- AddAdminSignatures sigs ;;
      if negb ok then ret (RString "error in signatures")
      else
        m <- get_msg ;;
        let result :=
          ([("nodeId", FId nNodeId)] ++
           (if HasCvnInfo m
            then [("pubKey", FHex vPubKey); ("address", FAddress vPubKey)]
            else []) ++
           (if HasChainParameters m
            then [("dynamicChainParams", FParams (dynamicChainParams m))]
            else []) ++
           (if HasChainAdmins m then [("pubKey", FHex vPubKey)] else []))%list in
        if IsInitialBlockDownload E then ret (RString wait_for_download)
        else
          added <- call_AddChainData m ;;
          (if added then call_RelayChainData m else ret tt) ;;
          ret (RObject result).

Definition removecvn (params : removecvn_params) : M rpc_value :=
  let fRemoveCvn := negb (String.eqb (rem_type params) "a") in
  let nNodeId := ReadHexUInt32 E (rem_id params) in
  let sigs := rem_sigs params in
  (* CChainDataMsg msg; *)
  modify_msg (fun _ => CChainDataMsg_new) ;;
  modify_msg (fun m =>
    set_nPayload
      (Z.lor (nPayload m)
         (if fRemoveCvn then CVN_PAYLOAD else CHAIN_ADMINS_PAYLOAD)) m) ;;
  modify_msg (set_hashPrevBlock (tipHash E)) ;;
  m <- get_msg ;;
  (if HasCvnInfo m then
     vresize msg_vCvns (Int.size_t_sub (Map.size (mapCVNs E)) 1) ;;
     (if negb (Map.count nNodeId (mapCVNs E)) then throw cvn_id_not_found
      else ret tt) ;;
     copy_except msg_vCvns nNodeId (mapCVNs E) 0 ;;
     ret tt
   else
     vresize msg_vChainAdmins (Int.size_t_sub (Map.size (mapChainAdmins E)) 1) ;;
     (if negb (Map.count nNodeId (mapChainAdmins E))
      then throw admin_id_not_found
      else ret tt) ;;
     copy_except msg_vChainAdmins nNodeId (mapChainAdmins E) 0 ;;
     ret tt) ;;
  if IsInitialBlockDownload E then ret (RString wait_for_download)
  else if is_empty sigs then
    m <- get_msg ;; ret (RHash (GetHash E m))
  else
    AddAdminSignatures sigs ;;
    m <- get_msg ;;
    added <- call_AddChainData m ;;
    (if added then call_RelayChainData m else ret tt) ;;
    ret (RObject [("Id", FId nNodeId)]).

End Rpc.

(** ** Vocabulary of the statements *)

(** Reading and writing a vector member behave as on a C++ member. *)
Class VFieldLaws {A} (F : vfield A) : Prop := {
  vget_vset : forall v m, vget F (vset F v m) = v;
  vset_vset : forall v w m, vset F v (vset F w m) = vset F v m;
  vset_vget : forall m, vset F (vget F m) m = m
}.

(** The part of a message that [GetHash] reads: everything but the admin
    signatures. *)
Definition unsigned_eq (m m' : CChainDataMsg) : Prop :=
  set_vAdminSignatures [] m = set_vAdminSignatures [] m'.

(** A token the loop accepts: exactly two parts. *)
Definition two_parts (strSig : string) : bool :=
  (length (split colon strSig) =? 2)%nat.

(** The signature the loop builds from an accepted token, [stale] being
    what the storage of [signerId] holds: the id read from the first part,
    or [stale] when that part is blank, and the bytes of the second part. *)
Definition decode (E : Env) (stale : Z) (strSig : string) : CCvnSignature :=
  mkCvnSignature
    (extract_hex E (c_str (nth 0 (split colon strSig) "")) stale)
    (ParseHex E (nth 1 (split colon strSig) "")).




(** What a run of the token loop can do to the state, whatever the tokens:
    it writes signatures, makes no call, and throws nothing but the format
    error. *)
Definition token_loop_frame (s : state) (out : result unit * state) : Prop :=
  trace (snd out) = trace s /\
  unsigned_eq (msg s) (msg (snd out)) /\
  match fst out with
  | Throw e => exists n, e = invalid_signature_format n
  | _ => True
  end.

(** The exceptions [AddAdminSignatures] can end with. *)
Definition signature_error (e : exn) : Prop :=
  match e with
  | not_enough_signatures _ _ | too_many_signatures _ _
  | invalid_signature_format _ | length_error _ => True
  | _ => False
  end.

(** The errors of [get_int]. *)
Definition get_int_error {A} (r : result A) : Prop :=
  r = Throw json_integer_out_of_range \/ r = Throw json_not_an_integer.

(** Whatever the tokens: the unsigned part of the message is left alone, the
    only call made is the verification, made once and last, over the hash of
    the message as it was on entry. *)
Definition signatures_frame (E : Env) (s : state) (out : result bool * state)
  : Prop :=
  unsigned_eq (msg s) (msg (snd out)) /\
  match fst out with
  | Ok b =>
      trace (snd out) =
        trace s ++ [Call_CheckAdminSignatures (GetHash E (msg s))
                      (vAdminSignatures (msg (snd out)))] /\
      b = CheckAdminSignatures E (GetHash E (msg s))
            (vAdminSignatures (msg (snd out)))
  | Throw e => trace (snd out) = trace s /\ signature_error e
  | Undefined => trace (snd out) = trace s
  end.

(** The state an RPC starts in. *)
Definition init : state := mkState CChainDataMsg_new [].

(** Occurrences of a character in a string. *)
Fixpoint occurrences (c : ascii) (s : string) : nat :=
  match s with
  | EmptyString => 0%nat
  | String x rest =>
      if Ascii.eqb x c then S (occurrences c rest) else occurrences c rest
  end.

(** The construction phase of [addcvn] (lines 175-186) and what follows it
    (lines 188-225); [addcvn_phases] below shows that [addcvn] is the guard on
    the public key followed by the two. *)
Definition addcvn_build (E : Env) (type id pubkey : string)
    (dyn : option json_object) : M unit :=
  let fAddCvn := negb (String.eqb type "a") in
  let nNodeId := ReadHexUInt32 E id in
  let vPubKey := ParseHex E pubkey in
  modify_msg (fun _ => CChainDataMsg_new) ;;
  modify_msg (set_hashPrevBlock (tipHash E)) ;;
  (if IsFullyValid E vPubKey then
     if fAddCvn then
       AddCvnInfoToMsg E nNodeId (Int.to_uint32 (tipHeight E + 1)) vPubKey
     else AddChainAdminToMsg E nNodeId vPubKey
   else ret tt) ;;
  (match dyn with
   | Some obj =>
       if negb (is_empty (getKeys obj)) then AddDynParamsToMsg E obj else ret tt
   | None => ret tt
   end).

Definition addcvn_finish (E : Env) (id pubkey : string) (sigs : list string)
  : M rpc_value :=
  let nNodeId := ReadHexUInt32 E id in
  let vPubKey := ParseHex E pubkey in
  if is_empty sigs then
    m <- get_msg ;; ret (RHash (GetHash E m))
  else
    ok <- AddAdminSignatures E sigs ;;
    if negb ok then ret (RString "error in signatures")
    else
      m <- get_msg ;;
      let result :=
        ([("nodeId", FId nNodeId)] ++
         (if HasCvnInfo m
          then [("pubKey", FHex vPubKey); ("address", FAddress vPubKey)]
          else []) ++
         (if HasChainParameters m
          then [("dynamicChainParams", FParams (dynamicChainParams m))]
          else []) ++
         (if HasChainAdmins m then [("pubKey", FHex vPubKey)] else []))%list in
      if IsInitialBlockDownload E then ret (RString wait_for_download)
      else
        added <- call_AddChainData E m ;;
        (if added then call_RelayChainData m else ret tt) ;;
        ret (RObject result).

(** The same for [removecvn]: lines 261-291 and lines 293-310. *)
Definition removecvn_build (E : Env) (type id : string) : M unit :=
  let fRemoveCvn := negb (String.eqb type "a") in
  let nNodeId := ReadHexUInt32 E id in
  modify_msg (fun _ => CChainDataMsg_new) ;;
  modify_msg (fun m =>
    set_nPayload
      (Z.lor (nPayload m)
         (if fRemoveCvn then CVN_PAYLOAD else CHAIN_ADMINS_PAYLOAD)) m) ;;
  modify_msg (set_hashPrevBlock (tipHash E)) ;;
  m <- get_msg ;;
  (if HasCvnInfo m then
     vresize msg_vCvns (Int.size_t_sub (Map.size (mapCVNs E)) 1) ;;
     (if negb (Map.count nNodeId (mapCVNs E)) then throw cvn_id_not_found
      else ret tt) ;;
     copy_except msg_vCvns nNodeId (mapCVNs E) 0 ;;
     ret tt
   else
     vresize msg_vChainAdmins (Int.size_t_sub (Map.size (mapChainAdmins E)) 1) ;;
     (if negb (Map.count nNodeId (mapChainAdmins E))
      then throw admin_id_not_found
      else ret tt) ;;
     copy_except msg_vChainAdmins nNodeId (mapChainAdmins E) 0 ;;
     ret tt).

Definition removecvn_finish (E : Env) (id : string) (sigs : list string)
  : M rpc_value :=
  let nNodeId := ReadHexUInt32 E id in
  if IsInitialBlockDownload E then ret (RString wait_for_download)
  else if is_empty sigs then
    m <- get_msg ;; ret (RHash (GetHash E m))
  else
    AddAdminSignatures E sigs ;;
    m <- get_msg ;;
    added <- call_AddChainData E m ;;
    (if added then call_RelayChainData m else ret tt) ;;
    ret (RObject [("Id", FId nNodeId)]).

(** The message [removecvn] has built when it reaches the resize. *)
Definition removal_header (E : Env) (flag : Z) : CChainDataMsg :=
  set_hashPrevBlock (tipHash E) (set_nPayload flag CChainDataMsg_new).

(** A computation that makes no call, however it ends. *)
Definition no_call {A} (c : M A) : Prop :=
  forall s, trace (snd (c s)) = trace s.

(** Calls that hand a message to the chain or to the peers. *)
Definition is_submission (c : call) : bool :=
  match c with
  | Call_AddChainData _ | Call_RelayChainData _ => true
  | Call_CheckAdminSignatures _ _ => false
  end.



(** ** The RPC entry points on their JSON arguments

    [addcvn] and [removecvn] above take their arguments already read as
    strings, tokens and integers.  Here the entry points are modelled as the
    RPC server calls them, on the array [params] of [UniValue]s and the
    [fHelp] flag, with the usage error and the type errors of the
    [UniValue] accessors; [signchaindata] and [getcvninfo] complete the
    file. *)

(** A JSON value.  [VNUM] holds an integer literal; [get_int] accepts it
    when it is an [int32_t]. *)
#[local] Unset Elimination Schemes.
Inductive UniValue :=
| VNULL
| VSTR (s : string)
| VNUM (z : Z)
| VBOOL (b : bool)
| VARR (items : list UniValue)
| VOBJ (members : list (string * UniValue)).
#[local] Set Elimination Schemes.

(** What an entry point can throw: its usage text ([fHelp] or a wrong number
    of arguments), the [runtime_error]s of the [UniValue] accessors, and the
    exceptions of the functions above. *)
Inductive rpc_error :=
| usage (rpc : string)
| not_a_string            (* "JSON value is not a string as expected" *)
| not_an_array            (* "JSON value is not an array as expected" *)
| integer_out_of_range    (* "JSON integer out of range" *)
| raised (e : exn).

Inductive outcome (A : Type) :=
| Done (a : A)
| Raise (e : rpc_error)
| Undef.
Arguments Done {A} a.
Arguments Raise {A} e.
Arguments Undef {A}.

(** The functions [signchaindata] calls outside the file. *)
Record Keys := mkKeys {
  CKey : Type;
  (** [uint256S] *)
  uint256S : string -> uint256;
  (** [CBitcoinSecret::SetString] followed by [GetKey], when it succeeds *)
  SetString : string -> option CKey;
  (** [key.Sign(hash, vSignature)]: the signature, when it succeeds *)
  Sign : CKey -> uint256 -> option bytes;
  CvnVerifyAdminSignature : uint256 -> CCvnSignature -> bool;
  HexStr : bytes -> string
}.

Module Raw.

Definition R (A : Type) : Type := state -> outcome A * state.

Definition rret {A} (a : A) : R A := fun s => (Done a, s).

Definition rbind {A B} (c : R A) (k : A -> R B) : R B :=
  fun s =>
    match c s with
    | (Done a, s') => k a s'
    | (Raise e, s') => (Raise e, s')
    | (Undef, s') => (Undef, s')
    end.

Definition raise {A} (e : rpc_error) : R A := fun s => (Raise e, s).

(** A computation of the functions above, run inside an entry point. *)
Definition liftM {A} (c : M A) : R A :=
  fun s =>
    match c s with
    | (Ok a, s') => (Done a, s')
    | (Throw e, s') => (Raise (raised e), s')
    | (Undefined, s') => (Undef, s')
    end.

Declare Scope rpc_scope.
Delimit Scope rpc_scope with rpc.
Notation "x <- c ;; k" := (rbind c (fun x => k))
  (at level 100, c at next level, right associativity) : rpc_scope.
Notation "c ;; k" := (rbind c (fun _ => k))
  (at level 100, right associativity) : rpc_scope.
Local Open Scope rpc_scope.

(** [params[i]]: the null value outside the array. *)
Definition at_index (params : list UniValue) (i : nat) : UniValue :=
  nth i params VNULL.

Definition isNull (v : UniValue) : bool :=
  match v with VNULL => true | _ => false end.

Definition get_str (v : UniValue) : R string :=
  match v with VSTR s => rret s | _ => raise not_a_string end.

Definition get_array (v : UniValue) : R (list UniValue) :=
  match v with VARR items => rret items | _ => raise not_an_array end.

Definition get_int (v : UniValue) : R Z :=
  match v with
  | VNUM z => if Int.in_int32 z then rret z else raise integer_out_of_range
  | _ => raise (raised json_not_an_integer)
  end.

(** [o.getKeys()] and [o[key]] on the members of an object. *)
Definition getKeys (o : list (string * UniValue)) : list string := map fst o.

Fixpoint find_value (o : list (string * UniValue)) (key : string) : UniValue :=
  match o with
  | [] => VNULL
  | (k, v) :: rest => if String.eqb k key then v else find_value rest key
  end.

Section Entry.

Context (E : Env) (K : Keys).

(** [AddAdminSignatures] on the array it receives: [sigs[i].get_str()] is
    evaluated inside the loop. *)
Fixpoint parse_signatures (sigs : list UniValue) (i : Z) (stale : Z)
  : R unit :=
  match sigs with
  | [] => rret tt
  | v :: rest =>
      strSig <- get_str v ;;
      sig <- liftM (lift (parse_signature E stale i strSig)) ;;
      liftM (vassign msg_vAdminSignatures i sig) ;;
      parse_signatures rest (Int.uint32_incr i) (nSignerId sig)
  end.

Definition AddAdminSignatures (sigs : list UniValue) : R bool :=
  let size := Z.of_nat (length sigs) in
  if size <? nMinCvnSigners (dynParams E) then
    raise (raised (not_enough_signatures size (nMinCvnSigners (dynParams E))))
  else if nMaxCvnSigners (dynParams E) <? size then
    raise (raised (too_many_signatures size (nMaxCvnSigners (dynParams E))))
  else
    liftM (vresize msg_vAdminSignatures size) ;;
    parse_signatures sigs 0 (signerId_on_entry E) ;;
    m <- liftM get_msg ;;
    liftM (call_CheckAdminSignatures E (GetHash E m) (vAdminSignatures m)).

(** [AddDynParamsToMsg] on the object it receives: [get_int] is evaluated
    for every key, by the log line, before the key is compared. *)
Fixpoint AddDynParamsToMsg_loop (jsonParams : list (string * UniValue))
    (paramsList : list string) : R unit :=
  match paramsList with
  | [] => rret tt
  | key :: rest =>
      v <- get_int (find_value jsonParams key) ;;
      liftM (modify_msg (fun m =>
        set_dynamicChainParams (assign_param key v (dynamicChainParams m)) m)) ;;
      AddDynParamsToMsg_loop jsonParams rest
  end.

Definition AddDynParamsToMsg (jsonParams : list (string * UniValue)) : R unit :=
  liftM (modify_msg
    (fun m => set_nPayload (Z.lor (nPayload m) CHAIN_PARAMETERS_PAYLOAD) m)) ;;
  liftM (modify_msg (fun m =>
    set_dynamicChainParams
      (mkDynParams (nBlockSpacing (dynParams E))
         (nBlockSpacingGracePeriod (dynParams E))
         (nDustThreshold (dynParams E))
         (nMaxCvnSigners (dynParams E))
         (nMinCvnSigners (dynParams E))
         (nMinSuccessiveSignatures (dynParams E))) m)) ;;
  AddDynParamsToMsg_loop jsonParams (getKeys jsonParams).

Definition addcvn (params : list UniValue) (fHelp : bool) : R rpc_value :=
  let size := length params in
  if fHelp || (size <? 4)%nat || (5 <? size)%nat then raise (usage "addcvn")
  else
    type <- get_str (at_index params 0) ;;
    let fAddCvn := negb (String.eqb type "a") in
    id <- get_str (at_index params 1) ;;
    let nNodeId := ReadHexUInt32 E id in
    pubkey <- get_str (at_index params 2) ;;
    let vPubKey := ParseHex E pubkey in
    let valid := IsFullyValid E vPubKey in
    if negb valid && isNull (at_index params 4) then
      raise (raised (invalid_public_key pubkey))
    else
      sigs <- get_array (at_index params 3) ;;
      (* CChainDataMsg msg; *)
      liftM (modify_msg (fun _ => CChainDataMsg_new)) ;;
      liftM (modify_msg (set_hashPrevBlock (tipHash E))) ;;
      liftM (if valid then
               if fAddCvn then
                 AddCvnInfoToMsg E nNodeId (Int.to_uint32 (tipHeight E + 1))
                   vPubKey
               else AddChainAdminToMsg E nNodeId vPubKey
             else ret tt) ;;
      (match at_index params 4 with
       | VOBJ obj =>
           if negb (is_empty (getKeys obj)) then AddDynParamsToMsg obj
           else rret tt
       | _ => rret tt
       end) ;;
      if is_empty sigs then
        m <- liftM get_msg ;; rret (RHash (GetHash E m))
      else
        ok <- AddAdminSignatures sigs ;;
        if negb ok then rret (RString "error in signatures")
        else
          m <- liftM get_msg ;;
          let result :=
            ([("nodeId", FId nNodeId)] ++
             (if HasCvnInfo m
              then [("pubKey", FHex vPubKey); ("address", FAddress vPubKey)]
              else []) ++
             (if HasChainParameters m
              then [("dynamicChainParams", FParams (dynamicChainParams m))]
              else []) ++
             (if HasChainAdmins m then [("pubKey", FHex vPubKey)] else []))%list in
          if IsInitialBlockDownload E then rret (RString wait_for_download)
          else
            added <- liftM (call_AddChainData E m) ;;
            liftM (if added then call_RelayChainData m else ret tt) ;;
            rret (RObject result).

Definition removecvn (params : list UniValue) (fHelp : bool) : R rpc_value :=
  if fHelp || negb (length params =? 3)%nat then raise (usage "removecvn")
  else
    type <- get_str (at_index params 0) ;;
    let fRemoveCvn := negb (String.eqb type "a") in
    id <- get_str (at_index params 1) ;;
    let nNodeId := ReadHexUInt32 E id in
    sigs <- get_array (at_index params 2) ;;
    (* CChainDataMsg msg; *)
    liftM (modify_msg (fun _ => CChainDataMsg_new)) ;;
    liftM (modify_msg (fun m =>
      set_nPayload
        (Z.lor (nPayload m)
           (if fRemoveCvn then CVN_PAYLOAD else CHAIN_ADMINS_PAYLOAD)) m)) ;;
    liftM (modify_msg (set_hashPrevBlock (tipHash E))) ;;
    m <- liftM get_msg ;;
    liftM
      (if HasCvnInfo m then
         (vresize msg_vCvns (Int.size_t_sub (Map.size (mapCVNs E)) 1) ;;
          (if negb (Map.count nNodeId (mapCVNs E)) then throw cvn_id_not_found
           else ret tt) ;;
          copy_except msg_vCvns nNodeId (mapCVNs E) 0 ;;
          ret tt)%cpp
       else
         (vresize msg_vChainAdmins
            (Int.size_t_sub (Map.size (mapChainAdmins E)) 1) ;;
          (if negb (Map.count nNodeId (mapChainAdmins E))
           then throw admin_id_not_found
           else ret tt) ;;
          copy_except msg_vChainAdmins nNodeId (mapChainAdmins E) 0 ;;
          ret tt)%cpp) ;;
    if IsInitialBlockDownload E then rret (RString wait_for_download)
    else if is_empty sigs then
      m <- liftM get_msg ;; rret (RHash (GetHash E m))
    else
      AddAdminSignatures sigs ;;
      m <- liftM get_msg ;;
      added <- liftM (call_AddChainData E m) ;;
      liftM (if added then call_RelayChainData m else ret tt) ;;
      rret (RObject [("Id", FId nNodeId)]).

(** The double quote character of the string literal of line 353. *)
Definition quote : ascii := ascii_of_nat 34.

Definition signchaindata (params : list UniValue) (fHelp : bool)
  : R rpc_value :=
  if fHelp || negb (length params =? 3)%nat then raise (usage "signchaindata")
  else
    strHash <- get_str (at_index params 0) ;;
    let hashChainData := uint256S K strHash in
    strId <- get_str (at_index params 1) ;;
    let nAdminId := ReadHexUInt32 E strId in
    strKey <- get_str (at_index params 2) ;;
    match SetString K strKey with
    | None => rret (RString "private key is invalid")
    | Some key =>
        match Sign K key hashChainData with
        | None =>
            rret (RString "CvnSignWithKey : could not create block signature")
        | Some vSignature =>
            let sig := mkCvnSignature nAdminId vSignature in
            if negb (CvnVerifyAdminSignature K hashChainData sig) then
              rret (RString "error signing chain data")
            else
              rret (RString
                     (String quote
                        (strId ++ String colon (HexStr K vSignature) ++
                         String quote EmptyString)%string))
        end
    end.

Definition getcvninfo (params : list UniValue) (fHelp : bool) : R rpc_value :=
  if fHelp || negb (length params =? 0)%nat then raise (usage "getcvninfo")
  else rret (RString "to be implemented").

End Entry.

End Raw.

(** ** Vocabulary for the parameter object *)

(** The value a member of the parameters ends with: the first value the
    object lists under the member's name, stored in a [uint32_t], or the
    current value when the object does not list the name. *)
Definition override (obj : json_object) (key : string) (current : Z) : Z :=
  match find_value obj key with
  | Some v => Int.to_uint32 v
  | None => current
  end.

(** The parameters [AddDynParamsToMsg] leaves in the message. *)
Definition overridden (E : Env) (obj : json_object) : CDynamicChainParams :=
  mkDynParams
    (override obj "nBlockSpacing" (nBlockSpacing (dynParams E)))
    (override obj "nBlockSpacingGracePeriod"
       (nBlockSpacingGracePeriod (dynParams E)))
    (override obj "nDustThreshold" (nDustThreshold (dynParams E)))
    (override obj "nMaxCvnSigners" (nMaxCvnSigners (dynParams E)))
    (override obj "nMinCvnSigners" (nMinCvnSigners (dynParams E)))
    (override obj "nMinSuccessiveSignatures"
       (nMinSuccessiveSignatures (dynParams E))).

(** The parameters whose members are given by name. *)
Definition params_of (f : string -> Z) : CDynamicChainParams :=
  mkDynParams (f "nBlockSpacing") (f "nBlockSpacingGracePeriod")
    (f "nDustThreshold") (f "nMaxCvnSigners") (f "nMinCvnSigners")
    (f "nMinSuccessiveSignatures").

(** The members by name after the assignments for [keys], in order. *)
Fixpoint after_keys (obj : json_object) (keys : list string) (f : string -> Z)
  : string -> Z :=
  match keys with
  | [] => f
  | key :: rest =>
      after_keys obj rest
        (fun n => if String.eqb key n then override obj key (f n) else f n)
  end.

(** [parts[0] + sep + parts[1] + ...] *)
Fixpoint join (sep : ascii) (parts : list string) : string :=
  match parts with
  | [] => EmptyString
  | [p] => p
  | p :: rest => (p ++ String sep (join sep rest))%string
  end.

(** ** Vocabulary for the JSON arguments *)

(** The JSON array of string tokens, the JSON object of integer members. *)
Definition json_tokens (sigs : list string) : list UniValue := map VSTR sigs.

Definition json_members (obj : json_object) : list (string * UniValue) :=
  map (fun kv => (fst kv, VNUM (snd kv))) obj.

(** The array of arguments for [addcvn] and [removecvn], the fifth argument
    of [addcvn] left out when there is no parameter object. *)
Definition addcvn_json (p : addcvn_params) : list UniValue :=
  [VSTR (add_type p); VSTR (add_id p); VSTR (add_pubkey p);
   VARR (json_tokens (add_sigs p))] ++
  match add_dyn p with
  | Some obj => [VOBJ (json_members obj)]
  | None => []
  end.

Definition removecvn_json (p : removecvn_params) : list UniValue :=
  [VSTR (rem_type p); VSTR (rem_id p); VARR (json_tokens (rem_sigs p))].

(** An integer [get_int] accepts. *)
Definition is_int32 (v : UniValue) : bool :=
  match v with VNUM z => Int.in_int32 z | _ => false end.

(** The message [addcvn] has built, with a fully valid key, when it reaches
    the test on the number of tokens (line 189). *)
Definition addcvn_message (E : Env) (t i k : string) (d : option json_object)
  : CChainDataMsg :=
  let id := ReadHexUInt32 E i in
  let pk := ParseHex E k in
  let admin := String.eqb t "a" in
  let with_params :=
    match d with Some (_ :: _) => true | _ => false end in
  mkChainDataMsg
    (Z.lor (if admin then CHAIN_ADMINS_PAYLOAD else CVN_PAYLOAD)
       (if with_params then CHAIN_PARAMETERS_PAYLOAD else 0))
    (tipHash E)
    (if admin then []
     else map snd (mapCVNs E) ++
          [mkCvnInfo id (Int.to_uint32 (tipHeight E + 1)) pk])
    (if admin then map snd (mapChainAdmins E) ++ [mkChainAdmin id pk]
     else [])
    (match d with
     | Some (kv :: obj) => overridden E (kv :: obj)
     | _ => CDynamicChainParams_default
     end)
    [].

(** A computation that never ends with a usage text. *)
Definition no_usage {A} (c : Raw.R A) : Prop :=
  forall s rpc, fst (c s) <> Raise (usage rpc).

(** The usage text [rpc] is thrown at once when [wrong] holds, and no usage
    text at all when it does not. *)
Definition usage_exactly {A} (rpc : string) (wrong : bool) (c : Raw.R A)
    (s : state) : Prop :=
  if wrong then c s = (Raise (usage rpc), s)
  else forall rpc', fst (c s) <> Raise (usage rpc').

(** ** An example node

    The scenario of the spec: validators 1..5, admins 10..13, between 3 and 7
    signers.  The functions from outside the file are given simple stand-ins:
    hexadecimal readers that stop at the first character that is no digit, a
    key check that accepts any non-empty key, a verification that accepts a
    signature list when every signer is a registered admin.  The storage of
    [signerId] holds 48879 when the token loop is entered. *)

Module Example.

Definition hex_value (c : ascii) : option Z :=
  let n := Z.of_N (N_of_ascii c) in
  if (48 <=? n) && (n <=? 57) then Some (n - 48)
  else if (97 <=? n) && (n <=? 102) then Some (n - 87)
  else if (65 <=? n) && (n <=? 70) then Some (n - 55)
  else None.

Definition byte_of_Z (z : Z) : byte :=
  match Byte.of_N (Z.to_N z) with
  | Some b => b
  | None => x00
  end.

Fixpoint parse_hex (s : string) : bytes :=
  match s with
  | String a (String b rest) =>
      match hex_value a, hex_value b with
      | Some x, Some y => byte_of_Z (16 * x + y) :: parse_hex rest
      | _, _ => []
      end
  | _ => []
  end.

Fixpoint read_hex (acc : Z) (s : string) : Z :=
  match s with
  | String c rest =>
      match hex_value c with
      | Some d => read_hex (16 * acc + d) rest
      | None => acc
      end
  | EmptyString => acc
  end.

Definition cvn (id : Z) : Z * CCvnInfo := (id, mkCvnInfo id 100 [x02; byte_of_Z id]).
Definition admin (id : Z) : Z * CChainAdmin := (id, mkChainAdmin id [x03; byte_of_Z id]).

Definition validators : Map.t CCvnInfo := [cvn 1; cvn 2; cvn 3; cvn 4; cvn 5].
Definition admins : Map.t CChainAdmin := [admin 10; admin 11; admin 12; admin 13].

Definition params : CDynamicChainParams := mkDynParams 180 60 10000 7 3 1.

Definition hash (flags : Z) (prev : uint256) (cvns : list CCvnInfo)
    (adms : list CChainAdmin) (p : CDynamicChainParams) : uint256 :=
  flags + 8 * (Z.of_nat (length cvns) + 64 * (Z.of_nat (length adms) +
    64 * (nMinCvnSigners p + 64 * (nMaxCvnSigners p + 64 * prev)))).

Definition check (h : uint256) (sigs : list CCvnSignature) : bool :=
  forallb (fun sg => Map.count (nSignerId sg) admins) sigs.

(** The node with the given validator registry and download state. *)
Definition node_with (cvns : Map.t CCvnInfo) (downloading : bool) : Env :=
  mkEnv params cvns admins 7777 120 downloading
    parse_hex (fun s => Int.to_uint32 (read_hex 0 s)) 48879
    (fun v => negb (is_empty v)) hash check (fun _ => true).

Definition node : Env := node_with validators false.
Definition syncing : Env := node_with validators true.
Definition fresh : Env := node_with [] false.

(** Stand-ins for the key functions: a private key is any non-empty
    hexadecimal string, a signature is one byte computed from the key and
    the hash, and verification asks for a registered admin. *)
Definition hex_char (n : Z) : ascii :=
  ascii_of_N (Z.to_N (if n <? 10 then 48 + n else 87 + n)).

Fixpoint hex_str (b : bytes) : string :=
  match b with
  | [] => EmptyString
  | x :: rest =>
      let n := Z.of_N (Byte.to_N x) in
      String (hex_char (n / 16)) (String (hex_char (n mod 16)) (hex_str rest))
  end.

Definition keys : Keys :=
  mkKeys Z (read_hex 0)
    (fun s => if is_empty (parse_hex s) then None else Some (read_hex 0 s))
    (fun key h => Some [byte_of_Z ((key + h) mod 256)])
    (fun h sg => Map.count (nSignerId sg) admins)
    hex_str.

End Example.

(** * Properties *)

(** ** Vector members of the message *)

#[export] Instance msg_vCvns_laws : VFieldLaws msg_vCvns.
Proof. split; [reflexivity | reflexivity | intros []; reflexivity]. Qed.

#[export] Instance msg_vChainAdmins_laws : VFieldLaws msg_vChainAdmins.
Proof. split; [reflexivity | reflexivity | intros []; reflexivity]. Qed.

#[export] Instance msg_vAdminSignatures_laws : VFieldLaws msg_vAdminSignatures.
Proof. split; [reflexivity | reflexivity | intros []; reflexivity]. Qed.

Lemma uint32_incr_small (i : Z) :
  0 <= i -> i + 1 < 2 ^ 32 -> Int.uint32_incr i = i + 1.
Proof.
  intros H0 H1. unfold Int.uint32_incr, Int.to_uint32, Int.uint32_modulus.
  apply Z.mod_small. lia.
Qed.

Lemma vassign_in_range {A} (F : vfield A) (i : Z) (x : A) (s : state) :
  0 <= i < Z.of_nat (length (vget F (msg s))) ->
  vassign F i x s =
    (Ok tt, mkState (vset F (<[Z.to_nat i := x]> (vget F (msg s))) (msg s))
              (trace s)).
Proof.
  intros Hi. unfold vassign, lift_vector, Vector.assign.
  replace (0 <=? i) with true by (symmetry; apply Z.leb_le; lia).
  replace (i <? Z.of_nat (length (vget F (msg s)))) with true
    by (symmetry; apply Z.ltb_lt; lia).
  reflexivity.
Qed.

Lemma vresize_in_range {A} (F : vfield A) (n : Z) (s : state) :
  n <= Vector.max_size ->
  vresize F n s =
    (Ok tt, mkState (vset F (resize (Z.to_nat n) (vdefault F) (vget F (msg s)))
                       (msg s)) (trace s)).
Proof.
  intros Hn. unfold vresize, lift_vector, Vector.resize.
  replace (Vector.max_size <? n) with false
    by (symmetry; apply Z.ltb_ge; lia).
  reflexivity.
Qed.

Lemma vresize_too_large {A} (F : vfield A) (n : Z) (s : state) :
  Vector.max_size < n ->
  vresize F n s = (Throw (length_error n), s).
Proof.
  intros Hn. unfold vresize, lift_vector, Vector.resize.
  replace (Vector.max_size <? n) with true
    by (symmetry; apply Z.ltb_lt; lia).
  reflexivity.
Qed.

(** Writing [x] at position [n] extends the part already written by one. *)
Lemma take_succ_insert {A} (v : list A) (n : nat) (x : A) :
  (n < length v)%nat -> take (S n) (<[n := x]> v) = take n v ++ [x].
Proof.
  intros Hn.
  rewrite (take_S_r _ _ x) by (apply list_lookup_insert_eq; exact Hn).
  rewrite take_insert_ge by lia. reflexivity.
Qed.

(** The copy loop fills the slots [index .. index + size m - 1] with the
    values of the map, in iteration order, and touches nothing else. *)
Lemma copy_all_run {A} (F : vfield A) `{!VFieldLaws F} (m : Map.t A) :
  forall (index : Z) (s : state),
    0 <= index ->
    index + Map.size m <= Z.of_nat (length (vget F (msg s))) ->
    index + Map.size m < 2 ^ 32 ->
    copy_all F m index s =
      (Ok (index + Map.size m),
       mkState
         (vset F (take (Z.to_nat index) (vget F (msg s)) ++ map snd m ++
                  drop (Z.to_nat (index + Map.size m)) (vget F (msg s)))
            (msg s))
         (trace s)).
Proof.
  induction m as [|e rest IH]; intros index s H0 Hlen H32.
  - cbn [copy_all map Map.size length Z.of_nat]. unfold ret.
    rewrite Z.add_0_r, app_nil_l, take_drop, vset_vget.
    destruct s; reflexivity.
  - unfold Map.size in *. cbn [length] in *.
    rewrite Nat2Z.inj_succ in *.
    cbn [copy_all]. unfold bind at 1.
    rewrite vassign_in_range by lia.
    rewrite uint32_incr_small by lia.
    rewrite IH; cbn [msg trace]; rewrite ?vget_vset, ?length_insert; try lia.
    rewrite vset_vset.
    replace (index + 1 + Z.of_nat (length rest))
      with (index + Z.succ (Z.of_nat (length rest))) by lia.
    replace (Z.to_nat (index + 1)) with (S (Z.to_nat index)) by lia.
    rewrite take_succ_insert by lia.
    rewrite drop_insert_lt by lia.
    cbn [map]. rewrite <- app_assoc. reflexivity.
Qed.

(** The filtering loop of [removecvn] is the copy loop over the entries kept. *)
Lemma copy_except_filter {A} (F : vfield A) (id : Z) (m : Map.t A) :
  forall (index : Z) (s : state),
    copy_except F id m index s =
    copy_all F (filter (fun e => fst e <> id) m) index s.
Proof.
  induction m as [|e rest IH]; intros index s; [reflexivity|].
  cbn [copy_except]. rewrite filter_cons.
  destruct (Z.eqb_spec (fst e) id) as [Heq|Hne]; cbn [negb].
  - rewrite decide_False by (intros Hc; exact (Hc Heq)). apply IH.
  - rewrite decide_True by exact Hne.
    cbn [copy_all]. unfold bind.
    destruct (vassign F index (snd e) s) as [[[]| |] s1]; try reflexivity.
    apply IH.
Qed.

(** ** Building the snapshot of an addition *)

Lemma size_t_add_small (a b : Z) :
  0 <= a -> 0 <= b -> a + b < 2 ^ 64 -> Int.size_t_add a b = a + b.
Proof.
  intros. unfold Int.size_t_add, Int.size_t_modulus. apply Z.mod_small. lia.
Qed.

(** A list of [n + 1] elements whose first [n] are dropped is a singleton. *)
Lemma drop_all_but_one {A} (v : list A) (n : nat) :
  length v = S n -> exists y, drop n v = [y].
Proof.
  intros Hlen.
  assert (Hd : length (drop n v) = 1%nat) by (rewrite length_drop; lia).
  destruct (drop n v) as [|y [|z l]]; try discriminate. eauto.
Qed.

(** Lines 69-78 (and 84-93): resize to [size + 1], copy, write the new entry
    at the index the loop stopped at. *)
Lemma snapshot_add_run {A} (F : vfield A) `{!VFieldLaws F}
    (m : Map.t A) (x : A) (s : state) :
  Map.size m < 2 ^ 32 ->
  (vresize F (Int.size_t_add (Map.size m) 1) ;;
   index <- copy_all F m 0 ;;
   vassign F index x) s =
  (Ok tt, mkState (vset F (map snd m ++ [x]) (msg s)) (trace s)).
Proof.
  intros Hsize. unfold Map.size in *.
  rewrite size_t_add_small by lia.
  unfold bind at 1.
  rewrite vresize_in_range by (unfold Vector.max_size; lia).
  unfold bind at 1.
  rewrite copy_all_run; [| assumption | lia | |];
    cbn [msg trace]; rewrite ?vget_vset, ?length_resize; unfold Map.size;
    try lia.
  rewrite vassign_in_range; cbn [msg trace];
    rewrite ?vget_vset, ?vset_vset.
  2:{ rewrite !length_app, length_map, length_drop, length_resize. cbn. lia. }
  f_equal. f_equal. f_equal.
  change (Z.to_nat 0) with 0%nat. rewrite take_0, app_nil_l.
  rewrite Z.add_0_l, !Nat2Z.id.
  set (v0 := resize _ _ _).
  destruct (drop_all_but_one v0 (length m)) as [y Hy].
  { unfold v0. rewrite length_resize. lia. }
  rewrite Hy.
  rewrite insert_app_r_alt by (rewrite length_map; lia).
  rewrite length_map, Nat.sub_diag. reflexivity.
Qed.

Lemma AddCvnInfoToMsg_run (E : Env) (id h : Z) (pk : bytes) (s : state) :
  Map.size (mapCVNs E) < 2 ^ 32 ->
  AddCvnInfoToMsg E id h pk s =
    (Ok tt,
     mkState
       (set_vCvns (map snd (mapCVNs E) ++ [mkCvnInfo id h pk])
          (set_nPayload (Z.lor (nPayload (msg s)) CVN_PAYLOAD) (msg s)))
       (trace s)).
Proof.
  intros Hsize. unfold AddCvnInfoToMsg. unfold bind at 1. cbn [modify_msg].
  rewrite (snapshot_add_run msg_vCvns) by assumption. reflexivity.
Qed.

Lemma AddChainAdminToMsg_run (E : Env) (id : Z) (pk : bytes) (s : state) :
  Map.size (mapChainAdmins E) < 2 ^ 32 ->
  AddChainAdminToMsg E id pk s =
    (Ok tt,
     mkState
       (set_vChainAdmins (map snd (mapChainAdmins E) ++ [mkChainAdmin id pk])
          (set_nPayload (Z.lor (nPayload (msg s)) CHAIN_ADMINS_PAYLOAD) (msg s)))
       (trace s)).
Proof.
  intros Hsize. unfold AddChainAdminToMsg. unfold bind at 1. cbn [modify_msg].
  rewrite (snapshot_add_run msg_vChainAdmins) by assumption. reflexivity.
Qed.

(** ** std::map invariants *)

Lemma ascending_from_length (hi : Z) (keys : list Z) :
  forall lo,
    lo <= hi ->
    Map.ascending_from lo keys = true ->
    Forall (fun k => k < hi) keys ->
    Z.of_nat (length keys) <= hi - lo.
Proof.
  induction keys as [|k rest IH]; intros lo Hlo Hasc Hall; cbn [length].
  - cbn. lia.
  - cbn [Map.ascending_from] in Hasc.
    apply andb_true_iff in Hasc as [Hk Hrest]. apply Z.leb_le in Hk.
    inversion Hall as [|? ? Hkhi Hall']; subst.
    specialize (IH (k + 1) ltac:(lia) Hrest Hall'). lia.
Qed.

(** A [std::map] keyed by [uint32_t] holds at most [2^32] entries. *)
Lemma map_wf_size {A} (m : Map.t A) :
  Map.wf m = true -> Map.size m <= 2 ^ 32.
Proof.
  unfold Map.wf, Map.size. intros H.
  apply andb_true_iff in H as [Hasc Hrange].
  rewrite <- (length_map fst m).
  pose proof (ascending_from_length (2 ^ 32) (map fst m) 0 ltac:(lia) Hasc) as Hb.
  rewrite Z.sub_0_r in Hb. apply Hb.
  rewrite forallb_forall in Hrange. apply List.Forall_forall.
  intros k Hk. specialize (Hrange k Hk).
  unfold Int.in_uint32, Int.uint32_modulus in Hrange.
  apply andb_true_iff in Hrange as [_ Hlt]. apply Z.ltb_lt in Hlt. exact Hlt.
Qed.

Lemma filter_below {A} (id : Z) (m : Map.t A) :
  forall lo,
    id < lo ->
    Map.ascending_from lo (map fst m) = true ->
    filter (fun e => fst e <> id) m = m.
Proof.
  induction m as [|e rest IH]; intros lo Hid Hasc; [reflexivity|].
  cbn [map Map.ascending_from] in Hasc.
  apply andb_true_iff in Hasc as [Hk Hrest]. apply Z.leb_le in Hk.
  rewrite filter_cons, decide_True by lia.
  f_equal. apply (IH (fst e + 1)); [lia | exact Hrest].
Qed.

(** Keys are unique: dropping a present key drops exactly one entry. *)
Lemma filter_present_length {A} (id : Z) (m : Map.t A) :
  forall lo,
    Map.ascending_from lo (map fst m) = true ->
    Map.count id m = true ->
    S (length (filter (fun e => fst e <> id) m)) = length m.
Proof.
  induction m as [|e rest IH]; intros lo Hasc Hcount; [discriminate|].
  cbn [map Map.ascending_from] in Hasc.
  apply andb_true_iff in Hasc as [Hk Hrest]. apply Z.leb_le in Hk.
  rewrite filter_cons. cbn [length].
  destruct (decide (fst e <> id)) as [Hne|Heq].
  - cbn [length]. f_equal. apply (IH (fst e + 1)); [exact Hrest|].
    unfold Map.count in *. cbn [existsb] in Hcount.
    replace (fst e =? id) with false in Hcount
      by (symmetry; apply Z.eqb_neq; lia).
    exact Hcount.
  - assert (fst e = id) by lia.
    rewrite (filter_below id rest (fst e + 1)); [reflexivity | lia | exact Hrest].
Qed.

(** ** Building the snapshot of a removal *)

Lemma size_t_sub_underflow : Int.size_t_sub 0 1 = 2 ^ 64 - 1.
Proof. reflexivity. Qed.

Lemma size_t_sub_small (a b : Z) :
  0 <= b <= a -> a < 2 ^ 64 -> Int.size_t_sub a b = a - b.
Proof.
  intros. unfold Int.size_t_sub, Int.size_t_modulus. apply Z.mod_small. lia.
Qed.

Section SnapshotRemove.

Context {A : Type} (F : vfield A) `{!VFieldLaws F}.
Context (not_found : exn) (id : Z) (m : Map.t A).

(** Lines 267-277 (and 280-290), in the order of the source. *)
Local Abbreviation snapshot_remove :=
  (vresize F (Int.size_t_sub (Map.size m) 1) ;;
   (if negb (Map.count id m) then throw not_found else ret tt) ;;
   copy_except F id m 0 ;;
   ret tt).

Lemma snapshot_remove_empty (s : state) :
  m = [] ->
  snapshot_remove s = (Throw (length_error (2 ^ 64 - 1)), s).
Proof.
  intros ->. unfold bind, Map.size.
  change (Z.of_nat (length [])) with 0.
  rewrite size_t_sub_underflow.
  rewrite vresize_too_large by (unfold Vector.max_size; lia). reflexivity.
Qed.

Lemma snapshot_remove_absent (s : state) :
  Map.wf m = true -> m <> [] -> Map.count id m = false ->
  snapshot_remove s =
    (Throw not_found,
     mkState
       (vset F (resize (Z.to_nat (Map.size m - 1)) (vdefault F)
                  (vget F (msg s))) (msg s))
       (trace s)).
Proof.
  intros Hwf Hne Hcount. pose proof (map_wf_size m Hwf) as Hsize.
  assert (1 <= Map.size m) by (unfold Map.size; destruct m; [done | cbn; lia]).
  unfold bind.
  rewrite size_t_sub_small by lia.
  rewrite vresize_in_range by (unfold Vector.max_size; lia).
  rewrite Hcount. reflexivity.
Qed.

Lemma snapshot_remove_present (s : state) :
  Map.wf m = true -> Map.count id m = true ->
  snapshot_remove s =
    (Ok tt,
     mkState (vset F (map snd (filter (fun e => fst e <> id) m)) (msg s))
       (trace s)).
Proof.
  intros Hwf Hcount. pose proof (map_wf_size m Hwf) as Hsize.
  pose proof Hwf as Hasc. unfold Map.wf in Hasc.
  apply andb_true_iff in Hasc as [Hasc _].
  pose proof (filter_present_length id m 0 Hasc Hcount) as Hlen.
  unfold Map.size in *.
  unfold bind at 1.
  rewrite size_t_sub_small by lia.
  rewrite vresize_in_range by (unfold Vector.max_size; lia).
  unfold bind at 1. rewrite Hcount. cbn [negb ret].
  unfold bind at 1. rewrite copy_except_filter.
  rewrite copy_all_run; try assumption; unfold Map.size; cbn [msg trace];
    rewrite ?vget_vset, ?length_resize; try lia.
  cbn [ret]. rewrite vset_vset.
  change (Z.to_nat 0) with 0%nat. rewrite take_0, app_nil_l.
  rewrite drop_ge by (rewrite length_resize; lia).
  rewrite app_nil_r. reflexivity.
Qed.

End SnapshotRemove.

(** ** Signature tokens *)

Lemma unsigned_eq_refl m : unsigned_eq m m.
Proof. reflexivity. Qed.

Lemma unsigned_eq_trans m1 m2 m3 :
  unsigned_eq m1 m2 -> unsigned_eq m2 m3 -> unsigned_eq m1 m3.
Proof. unfold unsigned_eq. congruence. Qed.

Lemma unsigned_eq_set_sigs v m : unsigned_eq m (set_vAdminSignatures v m).
Proof. reflexivity. Qed.

Lemma unsigned_eq_fields m m' :
  unsigned_eq m m' ->
  nPayload m = nPayload m' /\ hashPrevBlock m = hashPrevBlock m' /\
  vCvns m = vCvns m' /\ vChainAdmins m = vChainAdmins m' /\
  dynamicChainParams m = dynamicChainParams m'.
Proof. unfold unsigned_eq, set_vAdminSignatures. intros H. by inversion H. Qed.

Lemma GetHash_unsigned_eq (E : Env) m m' :
  unsigned_eq m m' -> GetHash E m = GetHash E m'.
Proof.
  intros H. apply unsigned_eq_fields in H as (H1 & H2 & H3 & H4 & H5).
  unfold GetHash. by rewrite H1, H2, H3, H4, H5.
Qed.

#[local] Hint Resolve unsigned_eq_refl unsigned_eq_set_sigs : core.

Lemma parse_signature_two_parts (E : Env) (stale i : Z) (strSig : string) :
  two_parts strSig = true ->
  parse_signature E stale i strSig = Ok (decode E stale strSig).
Proof. unfold parse_signature, two_parts. intros ->. reflexivity. Qed.

Lemma parse_signature_other (E : Env) (stale i : Z) (strSig : string) :
  two_parts strSig = false ->
  parse_signature E stale i strSig =
    Throw (invalid_signature_format (Int.to_uint32 (i + 1))).
Proof. unfold parse_signature, two_parts. intros ->. reflexivity. Qed.

Lemma parse_signatures_frame (E : Env) (sigs : list string) :
  forall (i stale : Z) (s : state),
    token_loop_frame s (parse_signatures E sigs i stale s).
Proof.
  induction sigs as [|strSig rest IH]; intros i stale s.
  - cbn. unfold token_loop_frame. cbn. auto.
  - cbn [parse_signatures]. unfold bind at 1. unfold lift, parse_signature.
    destruct (negb _).
    + unfold token_loop_frame. cbn. eauto.
    + unfold bind at 1.
      unfold vassign, lift_vector, Vector.assign. cbn [vget msg_vAdminSignatures].
      destruct (_ && _).
      * cbn [vset].
        match goal with |- token_loop_frame _ (parse_signatures _ _ _ ?st ?s1) =>
          destruct (IH (Int.uint32_incr i) st s1) as (Ht & Hu & Hr) end.
        cbn [msg trace] in *.
        split; [exact Ht|]. split; [|exact Hr].
        eapply unsigned_eq_trans; [|exact Hu]. auto.
      * unfold token_loop_frame. cbn. auto.
Qed.


(** ** AddAdminSignatures *)

Lemma AddAdminSignatures_frame (E : Env) (sigs : list string) (s : state) :
  signatures_frame E s (AddAdminSignatures E sigs s).
Proof.
  unfold AddAdminSignatures.
  destruct (_ <? nMinCvnSigners _); [by (split; cbn; auto)|].
  destruct (nMaxCvnSigners _ <? _); [by (split; cbn; auto)|].
  unfold bind at 1. unfold vresize, lift_vector, Vector.resize.
  destruct (Vector.max_size <? _); [by (split; cbn; auto)|].
  cbn [vget vset msg_vAdminSignatures].
  unfold bind at 1.
  match goal with |- context [parse_signatures E sigs 0 ?st ?s1] =>
    pose proof (parse_signatures_frame E sigs 0 st s1) as (Ht & Hu & Hr);
    destruct (parse_signatures E sigs 0 st s1) as [[[]|e|] s2]
  end; cbn [fst snd msg trace] in *.
  - assert (Hs : unsigned_eq (msg s) (msg s2))
      by (eapply unsigned_eq_trans; [|exact Hu]; auto).
    unfold bind, get_msg, call_CheckAdminSignatures, record, bind, ret.
    cbn. rewrite Ht, <- (GetHash_unsigned_eq E _ _ Hs).
    split; cbn; auto.
  - destruct Hr as [n ->]. split; cbn; [|by auto].
    eapply unsigned_eq_trans; [|exact Hu]; auto.
  - split; cbn; [|by auto].
    eapply unsigned_eq_trans; [|exact Hu]; auto.
Qed.

Lemma AddAdminSignatures_too_few (E : Env) (sigs : list string) (s : state) :
  Z.of_nat (length sigs) < nMinCvnSigners (dynParams E) ->
  AddAdminSignatures E sigs s =
    (Throw (not_enough_signatures (Z.of_nat (length sigs))
              (nMinCvnSigners (dynParams E))), s).
Proof.
  intros H. unfold AddAdminSignatures.
  apply Z.ltb_lt in H. rewrite H. reflexivity.
Qed.

Lemma AddAdminSignatures_too_many (E : Env) (sigs : list string) (s : state) :
  nMinCvnSigners (dynParams E) <= Z.of_nat (length sigs) ->
  nMaxCvnSigners (dynParams E) < Z.of_nat (length sigs) ->
  AddAdminSignatures E sigs s =
    (Throw (too_many_signatures (Z.of_nat (length sigs))
              (nMaxCvnSigners (dynParams E))), s).
Proof.
  intros Hmin Hmax. unfold AddAdminSignatures.
  apply Z.ltb_ge in Hmin. apply Z.ltb_lt in Hmax. rewrite Hmin, Hmax.
  reflexivity.
Qed.




(** ** boost::split *)

Lemma split_cons (c x : ascii) (rest : string) :
  split c (String x rest) =
    if Ascii.eqb x c then EmptyString :: split c rest
    else match split c rest with
         | tok :: toks => String x tok :: toks
         | [] => [String x EmptyString]
         end.
Proof. reflexivity. Qed.

Lemma split_length (c : ascii) (s : string) :
  length (split c s) = S (occurrences c s).
Proof.
  induction s as [|x rest IH]; [reflexivity|].
  rewrite split_cons. cbn [occurrences].
  destruct (Ascii.eqb x c); cbn [length]; [by rewrite IH|].
  destruct (split c rest) as [|tok toks]; [discriminate|].
  cbn [length] in *. exact IH.
Qed.

Lemma split_none (c : ascii) (s : string) :
  occurrences c s = 0%nat -> split c s = [s].
Proof.
  induction s as [|x rest IH]; intros H; [reflexivity|].
  rewrite split_cons. cbn [occurrences] in H.
  destruct (Ascii.eqb x c); [discriminate|].
  rewrite (IH H). reflexivity.
Qed.


Lemma two_parts_occurrences (strSig : string) :
  two_parts strSig = true <-> occurrences colon strSig = 1%nat.
Proof.
  unfold two_parts. rewrite split_length, Nat.eqb_eq. lia.
Qed.

(** * The specification, statement by statement *)

(** ** Thresholds *)

(** C6. [AddAdminSignatures] throws "not enough signatures" when the number
    of tokens is below [dynParams.nMinCvnSigners] and "too many signatures"
    when it is above [dynParams.nMaxCvnSigners] (the first test comes first,
    which matters only for parameters with the minimum above the maximum);
    anywhere between the two bounds, both included, neither is thrown.  Both
    throws happen before a token is read or a signature verified, and the
    bounds are those of the node's current [dynParams], whatever the message
    holds (the state [s] is arbitrary). *)
Theorem signer_bounds_checked_first (E : Env) (sigs : list string) (s : state) :
  let n := Z.of_nat (length sigs) in
  let lo := nMinCvnSigners (dynParams E) in
  let hi := nMaxCvnSigners (dynParams E) in
  (n < lo ->
   AddAdminSignatures E sigs s = (Throw (not_enough_signatures n lo), s)) /\
  (lo <= n \/ lo <= hi -> hi < n ->
   AddAdminSignatures E sigs s = (Throw (too_many_signatures n hi), s)) /\
  (lo <= n <= hi ->
   match fst (AddAdminSignatures E sigs s) with
   | Throw (not_enough_signatures _ _) | Throw (too_many_signatures _ _) => False
   | _ => True
   end).
Proof.
  cbv zeta. split; [|split].
  - apply AddAdminSignatures_too_few.
  - intros Hlo Hhi. apply AddAdminSignatures_too_many; lia.
  - intros [Hlo Hhi]. unfold AddAdminSignatures.
    apply Z.ltb_ge in Hlo, Hhi. rewrite Hlo, Hhi.
    unfold bind at 1. unfold vresize, lift_vector, Vector.resize.
    destruct (Vector.max_size <? _); [exact I|].
    unfold bind at 1.
    match goal with |- context [parse_signatures E sigs 0 ?st ?s1] =>
      pose proof (parse_signatures_frame E sigs 0 st s1) as (_ & _ & Hr);
      destruct (parse_signatures E sigs 0 st s1) as [[[]|e|] s2]
    end; cbn [fst] in *; try exact I.
    destruct Hr as [k ->]. exact I.
Qed.

Lemma signer_bounds_checked_first_witness :
  AddAdminSignatures Example.node ["a:00"; "b:01"] init =
    (Throw (not_enough_signatures 2 3), init) /\
  AddAdminSignatures Example.node
    ["a:0"; "b:1"; "c:2"; "d:3"; "a:4"; "b:5"; "c:6"; "d:7"] init =
    (Throw (too_many_signatures 8 7), init) /\
  match fst (AddAdminSignatures Example.node ["zz"; "b:01"; "63:"] init) with
  | Throw (not_enough_signatures _ _) | Throw (too_many_signatures _ _) => False
  | _ => True
  end.
Proof.
  split; [|split].
  - apply (proj1 (signer_bounds_checked_first Example.node ["a:00"; "b:01"] init)).
    vm_compute. reflexivity.
  - apply (proj1 (proj2 (signer_bounds_checked_first Example.node
      ["a:0"; "b:1"; "c:2"; "d:3"; "a:4"; "b:5"; "c:6"; "d:7"] init)));
      [left|]; vm_compute; [discriminate | reflexivity].
  - apply (proj2 (proj2 (signer_bounds_checked_first Example.node
      ["zz"; "b:01"; "63:"] init))).
    vm_compute. split; discriminate.
Defined.

(** ** Snapshots of an addition *)

(** C2, as amended.  [AddCvnInfoToMsg] and [AddChainAdminToMsg] never look
    the id up: for every registry of fewer than 2^32 entries and every id,
    registered or not, they succeed, set the payload flag, and embed the
    entries of the registry in key order followed by the new entry, which
    makes [size + 1] entries. *)
Theorem add_snapshot_appends (E : Env) (id h : Z) (pk : bytes) (s : state) :
  (Map.size (mapCVNs E) < 2 ^ 32 ->
   AddCvnInfoToMsg E id h pk s =
     (Ok tt,
      mkState
        (set_vCvns (map snd (mapCVNs E) ++ [mkCvnInfo id h pk])
           (set_nPayload (Z.lor (nPayload (msg s)) CVN_PAYLOAD) (msg s)))
        (trace s)) /\
   Z.of_nat (length (map snd (mapCVNs E) ++ [mkCvnInfo id h pk])) =
     Map.size (mapCVNs E) + 1) /\
  (Map.size (mapChainAdmins E) < 2 ^ 32 ->
   AddChainAdminToMsg E id pk s =
     (Ok tt,
      mkState
        (set_vChainAdmins (map snd (mapChainAdmins E) ++ [mkChainAdmin id pk])
           (set_nPayload (Z.lor (nPayload (msg s)) CHAIN_ADMINS_PAYLOAD)
              (msg s)))
        (trace s)) /\
   Z.of_nat (length (map snd (mapChainAdmins E) ++ [mkChainAdmin id pk])) =
     Map.size (mapChainAdmins E) + 1).
Proof.
  split; intros Hsize; (split; [|unfold Map.size;
    rewrite length_app, length_map; cbn [length]; lia]).
  - by apply AddCvnInfoToMsg_run.
  - by apply AddChainAdminToMsg_run.
Qed.

Lemma add_snapshot_appends_witness :
  AddCvnInfoToMsg Example.node 6 121 [x02] init =
    (Ok tt,
     mkState
       (set_vCvns (map snd Example.validators ++ [mkCvnInfo 6 121 [x02]])
          (set_nPayload CVN_PAYLOAD CChainDataMsg_new)) []) /\
  AddChainAdminToMsg Example.node 14 [x03] init =
    (Ok tt,
     mkState
       (set_vChainAdmins (map snd Example.admins ++ [mkChainAdmin 14 [x03]])
          (set_nPayload CHAIN_ADMINS_PAYLOAD CChainDataMsg_new)) []).
Proof.
  split.
  - apply (proj1 (add_snapshot_appends Example.node 6 121 [x02] init)).
    vm_compute. reflexivity.
  - apply (proj2 (add_snapshot_appends Example.node 14 121 [x03] init)).
    vm_compute. reflexivity.
Defined.

(** C2, the counterexample: validator 3 is registered on the example node,
    and adding it again yields a snapshot of six entries, two of them with
    id 3, instead of a failure. *)
Lemma add_snapshot_duplicate_id :
  Map.count 3 (mapCVNs Example.node) = true /\
  fst (AddCvnInfoToMsg Example.node 3 121 [x02] init) = Ok tt /\
  map nNodeId (vCvns (msg (snd (AddCvnInfoToMsg Example.node 3 121 [x02] init))))
    = [1; 2; 3; 4; 5; 3].
Proof. vm_compute. auto. Qed.

(** ** Signature tokens *)







(** ** The monad, and computations that make no call *)

Create HintDb no_call discriminated.

Lemma no_call_ret {A} (a : A) : no_call (ret a).
Proof. intros s. reflexivity. Qed.

Lemma no_call_throw {A} (e : exn) : no_call (@throw A e).
Proof. intros s. reflexivity. Qed.

Lemma no_call_lift {A} (r : result A) : no_call (lift r).
Proof. intros s. reflexivity. Qed.

Lemma no_call_get_msg : no_call get_msg.
Proof. intros s. reflexivity. Qed.

Lemma no_call_modify_msg f : no_call (modify_msg f).
Proof. intros s. reflexivity. Qed.

Lemma no_call_bind {A B} (c : M A) (k : A -> M B) :
  no_call c -> (forall a, no_call (k a)) -> no_call (bind c k).
Proof.
  intros Hc Hk s. unfold bind. specialize (Hc s).
  destruct (c s) as [[a|e|] s1]; cbn [snd] in *; try exact Hc.
  rewrite Hk. exact Hc.
Qed.

Lemma no_call_lift_vector {A} (F : vfield A) op : no_call (lift_vector F op).
Proof. intros s. unfold lift_vector. destruct (op _); reflexivity. Qed.

Lemma no_call_if {A} (b : bool) (c1 c2 : M A) :
  no_call c1 -> no_call c2 -> no_call (if b then c1 else c2).
Proof. destruct b; auto. Qed.

Lemma no_call_vresize {A} (F : vfield A) n : no_call (vresize F n).
Proof. apply no_call_lift_vector. Qed.

Lemma no_call_vassign {A} (F : vfield A) i x : no_call (vassign F i x).
Proof. apply no_call_lift_vector. Qed.

#[export] Hint Resolve no_call_ret no_call_throw no_call_lift no_call_get_msg
  no_call_modify_msg no_call_vresize no_call_vassign : no_call.
#[export] Hint Extern 1 (no_call (bind _ _)) =>
  apply no_call_bind; [|intros ?] : no_call.
#[export] Hint Extern 1 (no_call (if _ then _ else _)) =>
  apply no_call_if : no_call.

Lemma no_call_copy_all {A} (F : vfield A) (m : Map.t A) :
  forall index, no_call (copy_all F m index).
Proof. induction m; intros index; cbn [copy_all]; auto with no_call. Qed.

Lemma no_call_copy_except {A} (F : vfield A) (id : Z) (m : Map.t A) :
  forall index, no_call (copy_except F id m index).
Proof. induction m; intros index; cbn [copy_except]; auto with no_call. Qed.

#[export] Hint Resolve no_call_copy_all no_call_copy_except : no_call.

Lemma no_call_AddCvnInfoToMsg E id h pk : no_call (AddCvnInfoToMsg E id h pk).
Proof. unfold AddCvnInfoToMsg. auto 10 with no_call. Qed.

Lemma no_call_AddChainAdminToMsg E id pk : no_call (AddChainAdminToMsg E id pk).
Proof. unfold AddChainAdminToMsg. auto 10 with no_call. Qed.

Lemma no_call_AddDynParamsToMsg_loop obj keys :
  no_call (AddDynParamsToMsg_loop obj keys).
Proof. induction keys; cbn [AddDynParamsToMsg_loop]; auto 10 with no_call. Qed.

#[export] Hint Resolve no_call_AddCvnInfoToMsg no_call_AddChainAdminToMsg
  no_call_AddDynParamsToMsg_loop : no_call.

Lemma no_call_AddDynParamsToMsg E obj : no_call (AddDynParamsToMsg E obj).
Proof. unfold AddDynParamsToMsg. auto 10 with no_call. Qed.

#[export] Hint Resolve no_call_AddDynParamsToMsg : no_call.

Lemma no_call_addcvn_build E t i k d : no_call (addcvn_build E t i k d).
Proof.
  unfold addcvn_build. destruct d as [obj|]; auto 12 with no_call.
Qed.

Lemma no_call_removecvn_build E t i : no_call (removecvn_build E t i).
Proof. unfold removecvn_build. auto 14 with no_call. Qed.

(** ** The two phases of the RPCs *)

Lemma bind4_assoc {A B} (c1 c2 c3 c4 : M A) (k : M B) (s : state) :
  (c1 ;; c2 ;; c3 ;; c4 ;; k) s = ((c1 ;; c2 ;; c3 ;; c4) ;; k) s.
Proof.
  unfold bind.
  destruct (c1 s) as [[?|?|] s1]; try reflexivity.
  destruct (c2 s1) as [[?|?|] s2]; try reflexivity.
  destruct (c3 s2) as [[?|?|] s3]; reflexivity.
Qed.

Lemma bind5_assoc {A B C} (c1 c2 c3 : M A) (c4 : M B) (k4 : B -> M A)
    (k : M C) (s : state) :
  (c1 ;; c2 ;; c3 ;; b <- c4 ;; k4 b ;; k) s =
  ((c1 ;; c2 ;; c3 ;; b <- c4 ;; k4 b) ;; k) s.
Proof.
  unfold bind.
  destruct (c1 s) as [[?|?|] s1]; try reflexivity.
  destruct (c2 s1) as [[?|?|] s2]; try reflexivity.
  destruct (c3 s2) as [[?|?|] s3]; try reflexivity.
  destruct (c4 s3) as [[?|?|] s4]; reflexivity.
Qed.

Lemma addcvn_phases (E : Env) (t i k : string) (sigs : list string)
    (d : option json_object) (s : state) :
  addcvn E (mkAddParams t i k sigs d) s =
    (if negb (IsFullyValid E (ParseHex E k)) && isNull d
     then throw (invalid_public_key k)
     else addcvn_build E t i k d ;; addcvn_finish E i k sigs) s.
Proof.
  unfold addcvn, addcvn_build, addcvn_finish.
  cbn [add_type add_id add_pubkey add_sigs add_dyn].
  destruct (negb _ && _); [reflexivity|].
  apply bind4_assoc.
Qed.

Lemma removecvn_phases (E : Env) (t i : string) (sigs : list string)
    (s : state) :
  removecvn E (mkRemoveParams t i sigs) s =
    (removecvn_build E t i ;; removecvn_finish E i sigs) s.
Proof.
  unfold removecvn, removecvn_build, removecvn_finish.
  cbn [rem_type rem_id rem_sigs].
  apply bind5_assoc.
Qed.

(** ** removecvn, phase by phase *)

Lemma removecvn_build_cvn (E : Env) (t i : string) (s : state) :
  String.eqb t "a" = false ->
  removecvn_build E t i s =
    (vresize msg_vCvns (Int.size_t_sub (Map.size (mapCVNs E)) 1) ;;
     (if negb (Map.count (ReadHexUInt32 E i) (mapCVNs E))
      then throw cvn_id_not_found else ret tt) ;;
     copy_except msg_vCvns (ReadHexUInt32 E i) (mapCVNs E) 0 ;;
     ret tt)
      (mkState (removal_header E CVN_PAYLOAD) (trace s)).
Proof. intros Ht. unfold removecvn_build. rewrite Ht. reflexivity. Qed.

Lemma removecvn_build_admin (E : Env) (i : string) (s : state) :
  removecvn_build E "a" i s =
    (vresize msg_vChainAdmins
       (Int.size_t_sub (Map.size (mapChainAdmins E)) 1) ;;
     (if negb (Map.count (ReadHexUInt32 E i) (mapChainAdmins E))
      then throw admin_id_not_found else ret tt) ;;
     copy_except msg_vChainAdmins (ReadHexUInt32 E i) (mapChainAdmins E) 0 ;;
     ret tt)
      (mkState (removal_header E CHAIN_ADMINS_PAYLOAD) (trace s)).
Proof. reflexivity. Qed.

Lemma removecvn_finish_downloading (E : Env) (i : string) (sigs : list string)
    (s : state) :
  IsInitialBlockDownload E = true ->
  removecvn_finish E i sigs s = (Ok (RString wait_for_download), s).
Proof. intros H. unfold removecvn_finish. rewrite H. reflexivity. Qed.

Lemma removecvn_finish_no_tokens (E : Env) (i : string) (s : state) :
  IsInitialBlockDownload E = false ->
  removecvn_finish E i [] s = (Ok (RHash (GetHash E (msg s))), s).
Proof. intros H. unfold removecvn_finish. rewrite H. reflexivity. Qed.

(** Running the second phase after a first phase whose outcome is known. *)
Lemma bind_Ok {A B} (c : M A) (k : A -> M B) (s s1 : state) (a : A) :
  c s = (Ok a, s1) -> bind c k s = k a s1.
Proof. intros H. unfold bind. rewrite H. reflexivity. Qed.

Lemma bind_run {A B} (c : M A) (k : A -> M B) (s s1 : state) (r : result A) :
  c s = (r, s1) ->
  bind c k s =
    match r with
    | Ok a => k a s1
    | Throw e => (Throw e, s1)
    | Undefined => (Undefined, s1)
    end.
Proof. intros H. unfold bind. rewrite H. reflexivity. Qed.

Lemma bind_Throw {A B} (c : M A) (k : A -> M B) (s s1 : state) (e : exn) :
  c s = (Throw e, s1) -> bind c k s = (Throw e, s1).
Proof. intros H. unfold bind. rewrite H. reflexivity. Qed.

(** ** AddDynParamsToMsg *)

Lemma find_value_Some (obj : json_object) (key : string) :
  In key (getKeys obj) -> exists v, find_value obj key = Some v.
Proof.
  induction obj as [|[k v] rest IH]; intros Hin; [destruct Hin|].
  cbn [find_value]. destruct (String.eqb_spec k key) as [->|Hne]; [eauto|].
  apply IH. destruct Hin as [Heq|Hin]; [contradiction|exact Hin].
Qed.

Lemma find_value_int32 (obj : json_object) (key : string) (z : Z) :
  int32_values obj = true -> find_value obj key = Some z ->
  Int.in_int32 z = true.
Proof.
  induction obj as [|[k v] rest IH]; intros Hall Hfind; [discriminate|].
  cbn in Hall, Hfind. apply andb_true_iff in Hall as [Hv Hrest].
  destruct (String.eqb k key); [congruence|by apply IH].
Qed.

(** However the loop ends, it has touched nothing but the parameters, and
    it ends well or with an error of [get_int]. *)
Lemma AddDynParamsToMsg_loop_frame (obj : json_object) (keys : list string) :
  forall s,
    exists r p,
      AddDynParamsToMsg_loop obj keys s =
        (r, mkState (set_dynamicChainParams p (msg s)) (trace s)) /\
      (r = Ok tt \/ get_int_error r).
Proof.
  induction keys as [|key rest IH]; intros s.
  - exists (Ok tt), (dynamicChainParams (msg s)).
    destruct s as [[] ?]. split; [reflexivity|by left].
  - cbn [AddDynParamsToMsg_loop]. unfold bind at 1. unfold lift.
    destruct (get_int (find_value obj key)) as [v|e|] eqn:Hget.
    + unfold bind at 1. cbn [modify_msg].
      match goal with |- context [AddDynParamsToMsg_loop obj rest ?s1] =>
        destruct (IH s1) as (r & p & Hrun & Hr) end.
      rewrite Hrun. cbn [msg trace]. exists r, p. split; [|exact Hr].
      destruct s as [[] ?]. reflexivity.
    + exists (Throw e), (dynamicChainParams (msg s)).
      split; [destruct s as [[] ?]; reflexivity|right].
      unfold get_int in Hget. unfold get_int_error.
      destruct (find_value obj key) as [z|];
        [destruct (Int.in_int32 z)|]; inversion Hget; auto.
    + unfold get_int in Hget.
      destruct (find_value obj key) as [z|];
        [destruct (Int.in_int32 z)|]; discriminate.
Qed.

Lemma AddDynParamsToMsg_frame (E : Env) (obj : json_object) (s : state) :
  exists r p,
    AddDynParamsToMsg E obj s =
      (r,
       mkState
         (set_dynamicChainParams p
            (set_nPayload (Z.lor (nPayload (msg s)) CHAIN_PARAMETERS_PAYLOAD)
               (msg s)))
         (trace s)) /\
    (r = Ok tt \/ get_int_error r).
Proof.
  unfold AddDynParamsToMsg. unfold bind at 1. cbn [modify_msg].
  unfold bind at 1. cbn [modify_msg].
  match goal with |- context [AddDynParamsToMsg_loop obj _ ?s1] =>
    destruct (AddDynParamsToMsg_loop_frame obj (getKeys obj) s1)
      as (r & p & Hrun & Hr) end.
  rewrite Hrun. cbn [msg trace]. exists r, p. split; [reflexivity|exact Hr].
Qed.

Lemma AddDynParamsToMsg_loop_run (obj : json_object) (keys : list string) :
  int32_values obj = true ->
  forall s,
    (forall key, In key keys -> In key (getKeys obj)) ->
    exists p,
      AddDynParamsToMsg_loop obj keys s =
        (Ok tt, mkState (set_dynamicChainParams p (msg s)) (trace s)).
Proof.
  intros Hall. induction keys as [|key rest IH]; intros s Hsub.
  - exists (dynamicChainParams (msg s)). destruct s as [[] ?]. reflexivity.
  - destruct (find_value_Some obj key (Hsub key (or_introl eq_refl))) as [v Hv].
    cbn [AddDynParamsToMsg_loop]. unfold bind at 1. unfold lift.
    rewrite Hv. cbn [get_int]. rewrite (find_value_int32 obj key v Hall Hv).
    unfold bind at 1. cbn [modify_msg].
    edestruct IH as [p Hp]; [intros k' Hk'; apply Hsub; right; exact Hk'|].
    rewrite Hp. cbn [msg trace]. eexists. reflexivity.
Qed.

Lemma AddDynParamsToMsg_run (E : Env) (obj : json_object) (s : state) :
  int32_values obj = true ->
  exists p,
    AddDynParamsToMsg E obj s =
      (Ok tt,
       mkState
         (set_dynamicChainParams p
            (set_nPayload (Z.lor (nPayload (msg s)) CHAIN_PARAMETERS_PAYLOAD)
               (msg s)))
         (trace s)).
Proof.
  intros Hall.
  unfold AddDynParamsToMsg. unfold bind at 1. cbn [modify_msg].
  unfold bind at 1. cbn [modify_msg].
  edestruct (AddDynParamsToMsg_loop_run obj (getKeys obj) Hall) as [p Hp];
    [intros key Hkey; exact Hkey|].
  rewrite Hp. cbn [msg trace]. eexists. reflexivity.
Qed.

(** ** addcvn, phase by phase *)

Lemma addcvn_finish_no_tokens (E : Env) (i k : string) (s : state) :
  addcvn_finish E i k [] s = (Ok (RHash (GetHash E (msg s))), s).
Proof. reflexivity. Qed.

(** The first phase succeeds when the registries are of a size the loop
    index can count and the values of the parameter object are [int]s. *)
Lemma addcvn_build_run (E : Env) (t i k : string) (d : option json_object)
    (s : state) :
  Map.size (mapCVNs E) < 2 ^ 32 ->
  Map.size (mapChainAdmins E) < 2 ^ 32 ->
  dyn_int32 d = true ->
  exists m, addcvn_build E t i k d s = (Ok tt, mkState m (trace s)).
Proof.
  intros Hc Ha Hd. unfold addcvn_build.
  unfold bind at 1. cbn [modify_msg]. unfold bind at 1. cbn [modify_msg].
  set (s0 := mkState _ _).
  assert (exists m1, (if IsFullyValid E (ParseHex E k)
    then if negb (String.eqb t "a")
         then AddCvnInfoToMsg E (ReadHexUInt32 E i)
                (Int.to_uint32 (tipHeight E + 1)) (ParseHex E k)
         else AddChainAdminToMsg E (ReadHexUInt32 E i) (ParseHex E k)
    else ret tt) s0 = (Ok tt, mkState m1 (trace s))) as [m1 Hm1].
  { destruct (IsFullyValid _ _); [destruct (negb _)|].
    - rewrite AddCvnInfoToMsg_run by assumption. eauto.
    - rewrite AddChainAdminToMsg_run by assumption. eauto.
    - cbn. eauto. }
  rewrite (bind_Ok _ _ _ _ _ Hm1).
  destruct d as [obj|]; [destruct (negb (is_empty (getKeys obj)))|];
    try (cbn; eauto; fail).
  destruct (AddDynParamsToMsg_run E obj (mkState m1 (trace s)) Hd) as [p Hp].
  rewrite Hp. cbn [msg trace]. eauto.
Qed.

(** With a key that is not valid, the first phase adds no registry entry,
    however it ends; it ends well when the values of the parameter object
    are [int]s, and with an error of [get_int] otherwise. *)
Lemma addcvn_build_invalid_key (E : Env) (t i k : string)
    (d : option json_object) (s : state) :
  IsFullyValid E (ParseHex E k) = false ->
  exists r p,
    addcvn_build E t i k d s =
      (r,
       mkState
         (mkChainDataMsg
            (match d with
             | Some obj =>
                 if is_empty obj then 0 else CHAIN_PARAMETERS_PAYLOAD
             | None => 0
             end)
            (tipHash E) [] [] p [])
         (trace s)) /\
    (r = Ok tt \/ get_int_error r) /\
    (dyn_int32 d = true -> r = Ok tt).
Proof.
  intros Hk. unfold addcvn_build. rewrite Hk.
  unfold bind at 1. cbn [modify_msg]. unfold bind at 1. cbn [modify_msg].
  unfold bind at 1. cbn [ret msg trace].
  destruct d as [[|kv obj]|];
    try (cbn; exists (Ok tt); eexists; repeat split; auto; fail).
  cbn [getKeys map is_empty negb dyn_int32].
  match goal with |- context [AddDynParamsToMsg E ?o ?s0] =>
    destruct (AddDynParamsToMsg_frame E o s0) as (r & p & Hp & Hr);
    pose proof (AddDynParamsToMsg_run E o s0) as Hrun
  end.
  rewrite Hp in *. exists r, p. split; [reflexivity|]. split; [exact Hr|].
  intros Hall. destruct (Hrun Hall) as [p' Hp']. congruence.
Qed.

(** What the second phase of [addcvn] can do: it leaves the unsigned part of
    the message alone, throws nothing but what [AddAdminSignatures] throws,
    and calls, in this order, the verification (over the hash of the message
    it was given) and, only if that returned [true], the submission and the
    relay. *)
Lemma addcvn_finish_frame (E : Env) (i k : string) (sigs : list string)
    (s : state) :
  let out := addcvn_finish E i k sigs s in
  unsigned_eq (msg s) (msg (snd out)) /\
  match fst out with Throw e => signature_error e | _ => True end /\
  exists calls,
    trace (snd out) = trace s ++ calls /\
    (calls = [] \/
     exists v rest,
       calls = Call_CheckAdminSignatures (GetHash E (msg s)) v :: rest /\
       forallb is_submission rest = true /\
       (CheckAdminSignatures E (GetHash E (msg s)) v = false ->
        rest = [] /\ fst out = Ok (RString "error in signatures"))).
Proof.
  cbv zeta. unfold addcvn_finish.
  destruct (is_empty sigs).
  { cbn. repeat split; auto. exists []. rewrite app_nil_r. auto. }
  pose proof (AddAdminSignatures_frame E sigs s) as [Hu Hr].
  destruct (AddAdminSignatures E sigs s) as [r s1] eqn:HA.
  rewrite !(bind_run _ _ _ _ _ HA).
  cbn [fst snd] in Hu, Hr.
  destruct r as [b|e|].
  - destruct Hr as [Ht Hb].
    set (h := GetHash E (msg s)) in *.
    set (v := vAdminSignatures (msg s1)) in *.
    destruct b; cbn [negb].
    + unfold bind, get_msg, call_AddChainData, call_RelayChainData, record,
        bind, ret.
      cbv beta iota.
      destruct (IsInitialBlockDownload E); [|destruct (AddChainData E (msg s1))];
        cbv beta iota; cbn [fst snd msg trace];
        (split; [exact Hu|]; split; [exact I|]);
        rewrite Ht, <- ?app_assoc;
        (eexists; split; [reflexivity|]);
        right; exists v; eexists; (split; [reflexivity|]);
        (split; [reflexivity|]); intros Hf; congruence.
    + cbn. repeat split; auto.
      exists [Call_CheckAdminSignatures h v]. split; [exact Ht|].
      right. exists v, []. repeat split; auto.
  - destruct Hr as [Ht He]. cbn. repeat split; auto.
    exists []. rewrite app_nil_r. auto.
  - cbn. repeat split; auto. exists []. rewrite app_nil_r. auto.
Qed.

(** ** Snapshots of a removal *)

Lemma removecvn_cvn_absent (E : Env) (t i : string) (sigs : list string)
    (s : state) :
  String.eqb t "a" = false ->
  Map.wf (mapCVNs E) = true -> mapCVNs E <> [] ->
  Map.count (ReadHexUInt32 E i) (mapCVNs E) = false ->
  removecvn E (mkRemoveParams t i sigs) s =
    (Throw cvn_id_not_found,
     mkState
       (set_vCvns
          (replicate (Z.to_nat (Map.size (mapCVNs E) - 1)) CCvnInfo_default)
          (removal_header E CVN_PAYLOAD))
       (trace s)).
Proof.
  intros Ht Hwf Hne Hcount. rewrite removecvn_phases.
  apply bind_Throw. rewrite removecvn_build_cvn by exact Ht.
  rewrite (snapshot_remove_absent msg_vCvns) by assumption.
  cbn [vget vset vdefault msg_vCvns msg trace].
  change (vCvns (removal_header E CVN_PAYLOAD)) with (@nil CCvnInfo).
  rewrite resize_nil. reflexivity.
Qed.


(** C9.  [removecvn] resizes the vector of the message to the size of the
    registry minus one, in [size_t] arithmetic, before it looks the id up.
    With an empty registry the requested size is [2^64 - 1] and the call ends
    in the [std::length_error] of that resize, not in "CVN ID not found"
    ("Admin ID not found"); with a registry that is not empty and does not
    hold the id, "not found" is thrown with the vector already resized to
    [size - 1] value-initialised entries. *)
Theorem resize_before_lookup (E : Env) (i : string) (sigs : list string)
    (s : state) :
  (forall t,
     String.eqb t "a" = false ->
     (mapCVNs E = [] ->
      removecvn E (mkRemoveParams t i sigs) s =
        (Throw (length_error (2 ^ 64 - 1)),
         mkState (removal_header E CVN_PAYLOAD) (trace s))) /\
     (Map.wf (mapCVNs E) = true -> mapCVNs E <> [] ->
      Map.count (ReadHexUInt32 E i) (mapCVNs E) = false ->
      removecvn E (mkRemoveParams t i sigs) s =
        (Throw cvn_id_not_found,
         mkState
           (set_vCvns
              (replicate (Z.to_nat (Map.size (mapCVNs E) - 1)) CCvnInfo_default)
              (removal_header E CVN_PAYLOAD))
           (trace s)))) /\
  (mapChainAdmins E = [] ->
   removecvn E (mkRemoveParams "a" i sigs) s =
     (Throw (length_error (2 ^ 64 - 1)),
      mkState (removal_header E CHAIN_ADMINS_PAYLOAD) (trace s))) /\
  (Map.wf (mapChainAdmins E) = true -> mapChainAdmins E <> [] ->
   Map.count (ReadHexUInt32 E i) (mapChainAdmins E) = false ->
   removecvn E (mkRemoveParams "a" i sigs) s =
     (Throw admin_id_not_found,
      mkState
        (set_vChainAdmins
           (replicate (Z.to_nat (Map.size (mapChainAdmins E) - 1))
              CChainAdmin_default)
           (removal_header E CHAIN_ADMINS_PAYLOAD))
        (trace s))).
Proof.
  split; [intros t Ht; split|split].
  - intros Hempty. rewrite removecvn_phases.
    apply bind_Throw. rewrite removecvn_build_cvn by exact Ht.
    rewrite (snapshot_remove_empty msg_vCvns) by assumption. reflexivity.
  - intros Hwf Hne Hcount. by apply removecvn_cvn_absent.
  - intros Hempty. rewrite removecvn_phases.
    apply bind_Throw. rewrite removecvn_build_admin.
    rewrite (snapshot_remove_empty msg_vChainAdmins) by assumption. reflexivity.
  - intros Hwf Hne Hcount. rewrite removecvn_phases.
    apply bind_Throw. rewrite removecvn_build_admin.
    rewrite (snapshot_remove_absent msg_vChainAdmins) by assumption.
    cbn [vget vset vdefault msg_vChainAdmins msg trace].
    change (vChainAdmins (removal_header E CHAIN_ADMINS_PAYLOAD))
      with (@nil CChainAdmin).
    rewrite resize_nil. reflexivity.
Qed.

Lemma resize_before_lookup_witness :
  removecvn Example.fresh (mkRemoveParams "c" "63" []) init =
    (Throw (length_error (2 ^ 64 - 1)),
     mkState (removal_header Example.fresh CVN_PAYLOAD) []) /\
  removecvn Example.node (mkRemoveParams "c" "63" []) init =
    (Throw cvn_id_not_found,
     mkState
       (set_vCvns (replicate 4 CCvnInfo_default)
          (removal_header Example.node CVN_PAYLOAD)) []) /\
  removecvn Example.node (mkRemoveParams "a" "63" []) init =
    (Throw admin_id_not_found,
     mkState
       (set_vChainAdmins (replicate 3 CChainAdmin_default)
          (removal_header Example.node CHAIN_ADMINS_PAYLOAD)) []).
Proof.
  split; [|split].
  - apply (proj1 (proj1 (resize_before_lookup Example.fresh "63" [] init)
                    "c" eq_refl)).
    reflexivity.
  - apply (proj2 (proj1 (resize_before_lookup Example.node "63" [] init)
                    "c" eq_refl));
      vm_compute; first [reflexivity | discriminate].
  - apply (proj2 (proj2 (resize_before_lookup Example.node "63" [] init)));
      vm_compute; first [reflexivity | discriminate].
Defined.

(** C5, at the failing input: with an empty validator registry, removing
    validator 0x63 ends in the length error of the resize to [2^64 - 1]
    entries, where the specification has "not found". *)
Lemma removecvn_empty_registry :
  Map.count (ReadHexUInt32 Example.fresh "63") (mapCVNs Example.fresh) = false /\
  removecvn Example.fresh (mkRemoveParams "c" "63" []) init =
    (Throw (length_error 18446744073709551615),
     mkState (removal_header Example.fresh CVN_PAYLOAD) []).
Proof. vm_compute. auto. Qed.

(** ** Verification before submission *)

(** C1, at the failing input: on the example node the three tokens name
    signer 0x63, who is no admin, so [CheckAdminSignatures] returns [false];
    [removecvn] drops that result, calls [AddChainData] and
    [RelayChainData] on the message and reports success. *)
Lemma removecvn_submits_unverified :
  let out :=
    removecvn Example.node
      (mkRemoveParams "c" "3" ["63:aa"; "63:bb"; "63:cc"]) init in
  exists h v m,
    trace (snd out) =
      [Call_CheckAdminSignatures h v; Call_AddChainData m;
       Call_RelayChainData m] /\
    CheckAdminSignatures Example.node h v = false /\
    fst out = Ok (RObject [("Id", FId 3)]).
Proof.
  cbv zeta. do 3 eexists. split; [vm_compute; reflexivity|].
  split; vm_compute; reflexivity.
Qed.

(** ** The signing hash *)

(** C4, as amended.  With an empty token list [addcvn] returns the hash of
    the message it has built, whatever [IsInitialBlockDownload] says (the
    node [E] is arbitrary), provided the guard on the public key lets the
    call through, the registries are of a size the copy loop can count and
    every value of the parameter object, if there is one, is an [int] (line
    112 reads the values with [get_int] before the tokens are looked at).
    [removecvn], for an id that is registered, tests
    [IsInitialBlockDownload] before it looks at the tokens: it returns the
    hash of the message only when the node is not downloading, and the "wait
    for block chain download" string when it is. *)
Theorem empty_token_list_returns_hash (E : Env) (i : string) (s : state) :
  (forall t k d,
     IsFullyValid E (ParseHex E k) = true \/ isNull d = false ->
     Map.size (mapCVNs E) < 2 ^ 32 ->
     Map.size (mapChainAdmins E) < 2 ^ 32 ->
     dyn_int32 d = true ->
     exists m,
       addcvn E (mkAddParams t i k [] d) s =
         (Ok (RHash (GetHash E m)), mkState m (trace s))) /\
  (forall t,
     String.eqb t "a" = false ->
     Map.wf (mapCVNs E) = true ->
     Map.count (ReadHexUInt32 E i) (mapCVNs E) = true ->
     let m :=
       set_vCvns
         (map snd (filter (fun e => fst e <> ReadHexUInt32 E i) (mapCVNs E)))
         (removal_header E CVN_PAYLOAD) in
     removecvn E (mkRemoveParams t i []) s =
       (Ok (if IsInitialBlockDownload E then RString wait_for_download
            else RHash (GetHash E m)),
        mkState m (trace s))) /\
  (Map.wf (mapChainAdmins E) = true ->
   Map.count (ReadHexUInt32 E i) (mapChainAdmins E) = true ->
   let m :=
     set_vChainAdmins
       (map snd
          (filter (fun e => fst e <> ReadHexUInt32 E i) (mapChainAdmins E)))
       (removal_header E CHAIN_ADMINS_PAYLOAD) in
   removecvn E (mkRemoveParams "a" i []) s =
     (Ok (if IsInitialBlockDownload E then RString wait_for_download
          else RHash (GetHash E m)),
      mkState m (trace s))).
Proof.
  split; [|split].
  - intros t k d Hguard Hc Ha Hd. rewrite addcvn_phases.
    replace (negb (IsFullyValid E (ParseHex E k)) && isNull d) with false
      by (destruct Hguard as [-> | ->]; [reflexivity|]; symmetry;
          apply andb_false_r).
    destruct (addcvn_build_run E t i k d s Hc Ha Hd) as [m Hm].
    exists m. rewrite (bind_Ok _ _ _ _ _ Hm). apply addcvn_finish_no_tokens.
  - intros t Ht Hwf Hcount m. rewrite removecvn_phases.
    erewrite bind_Ok.
    2:{ rewrite removecvn_build_cvn by exact Ht.
        rewrite (snapshot_remove_present msg_vCvns) by assumption.
        reflexivity. }
    cbn [msg trace vset msg_vCvns]. fold m.
    destruct (IsInitialBlockDownload E) eqn:Hibd.
    + by rewrite removecvn_finish_downloading.
    + by rewrite removecvn_finish_no_tokens.
  - intros Hwf Hcount m. rewrite removecvn_phases.
    erewrite bind_Ok.
    2:{ rewrite removecvn_build_admin.
        rewrite (snapshot_remove_present msg_vChainAdmins) by assumption.
        reflexivity. }
    cbn [msg trace vset msg_vChainAdmins]. fold m.
    destruct (IsInitialBlockDownload E) eqn:Hibd.
    + by rewrite removecvn_finish_downloading.
    + by rewrite removecvn_finish_no_tokens.
Qed.

Lemma empty_token_list_returns_hash_witness :
  (exists m,
     addcvn Example.syncing
       (mkAddParams "c" "6" "02aa" [] (Some [("nMinCvnSigners", 2)])) init =
       (Ok (RHash (GetHash Example.syncing m)), mkState m [])) /\
  fst (removecvn Example.node (mkRemoveParams "c" "3" []) init) =
    Ok (RHash 1043811270689) /\
  fst (removecvn Example.node (mkRemoveParams "a" "b" []) init) =
    Ok (RHash 1043811272194).
Proof.
  split; [|split].
  - apply (proj1 (empty_token_list_returns_hash Example.syncing "6" init)
             "c" "02aa" (Some [("nMinCvnSigners", 2)])); vm_compute; auto.
  - rewrite (proj1 (proj2 (empty_token_list_returns_hash Example.node "3" init))
               "c" eq_refl); vm_compute; reflexivity.
  - rewrite (proj2 (proj2 (empty_token_list_returns_hash Example.node "b" init)));
      vm_compute; reflexivity.
Defined.

(** C4, the counterexample: the example node while downloading, validator 3
    registered, no token: [removecvn] answers with the wait string, not with
    a hash. *)
Lemma removecvn_no_hash_while_downloading :
  IsInitialBlockDownload Example.syncing = true /\
  Map.count (ReadHexUInt32 Example.syncing "3") (mapCVNs Example.syncing) = true /\
  fst (removecvn Example.syncing (mkRemoveParams "c" "3" []) init) =
    Ok (RString "wait for block chain download to finish").
Proof. vm_compute. auto. Qed.

(** C7.  [GetHash] does not read [vAdminSignatures]: replacing the
    signatures of a message leaves its hash unchanged.  In
    [AddAdminSignatures] the verification is called, after the vector has
    been filled, on the hash the message had on entry, which is also its hash
    on exit.  In [addcvn], when a call without tokens returns the hash [h],
    every verification made by the call with the same arguments and any
    tokens is made on [h]. *)
Theorem signing_hash_excludes_signatures (E : Env) :
  (forall m v, GetHash E (set_vAdminSignatures v m) = GetHash E m) /\
  (forall sigs s b s',
     AddAdminSignatures E sigs s = (Ok b, s') ->
     GetHash E (msg s') = GetHash E (msg s) /\
     trace s' =
       trace s ++ [Call_CheckAdminSignatures (GetHash E (msg s))
                     (vAdminSignatures (msg s'))]) /\
  (forall t i k d toks s h s0,
     addcvn E (mkAddParams t i k [] d) s = (Ok (RHash h), s0) ->
     forall h' v,
       In (Call_CheckAdminSignatures h' v)
          (trace (snd (addcvn E (mkAddParams t i k toks d) s))) ->
       In (Call_CheckAdminSignatures h' v) (trace s) \/ h' = h).
Proof.
  split; [reflexivity|split].
  - intros sigs s b s' HA.
    pose proof (AddAdminSignatures_frame E sigs s) as [Hu Hr].
    rewrite HA in Hu, Hr. cbn [fst snd] in Hu, Hr.
    split; [symmetry; by apply GetHash_unsigned_eq | apply Hr].
  - intros t i k d toks s h s0 Hhash h' v Hin.
    rewrite addcvn_phases in Hhash, Hin.
    destruct (negb _ && _); [discriminate|].
    pose proof (no_call_addcvn_build E t i k d s) as Htrace.
    destruct (addcvn_build E t i k d s) as [r s1] eqn:Hbuild.
    cbn [snd] in Htrace.
    rewrite (bind_run _ _ _ _ _ Hbuild) in Hhash.
    rewrite (bind_run _ _ _ _ _ Hbuild) in Hin.
    destruct r as [[]|e|]; try discriminate.
    rewrite addcvn_finish_no_tokens in Hhash.
    injection Hhash as <- <-.
    destruct (addcvn_finish_frame E i k toks s1)
      as (_ & _ & calls & Hcalls & Hshape).
    rewrite Hcalls, Htrace in Hin.
    apply in_app_or in Hin as [Hin|Hin]; [left; exact Hin|right].
    destruct Hshape as [->|(v0 & rest & -> & Hrest & _)]; [destruct Hin|].
    destruct Hin as [Heq|Hin]; [congruence|].
    rewrite forallb_forall in Hrest. specialize (Hrest _ Hin). discriminate.
Qed.

Lemma signing_hash_excludes_signatures_witness :
  trace (snd (AddAdminSignatures Example.node ["a:00"; "b:01"; "c:02"] init)) =
    [Call_CheckAdminSignatures (GetHash Example.node CChainDataMsg_new)
       [mkCvnSignature 10 [x00]; mkCvnSignature 11 [x01];
        mkCvnSignature 12 [x02]]] /\
  (In (Call_CheckAdminSignatures 1043811270705
         [mkCvnSignature 10 [x00]; mkCvnSignature 11 [x01];
          mkCvnSignature 12 [x02]]) [] \/
   1043811270705 = 1043811270705).
Proof.
  split.
  - pose proof (proj1 (proj2 (signing_hash_excludes_signatures Example.node))
      ["a:00"; "b:01"; "c:02"] init true
      (snd (AddAdminSignatures Example.node ["a:00"; "b:01"; "c:02"] init))
      eq_refl) as [_ Htrace].
    exact Htrace.
  - apply (proj2 (proj2 (signing_hash_excludes_signatures Example.node))
      "c" "6" "02aa" None ["a:00"; "b:01"; "c:02"] init 1043811270705
      (snd (addcvn Example.node (mkAddParams "c" "6" "02aa" [] None) init))
      eq_refl).
    vm_compute. left. reflexivity.
Defined.

(** ** The guard on the public key *)

(** C10, as amended.  With a public key that is not fully valid, [addcvn]
    throws "Invalid public key" exactly when the fifth argument is absent.
    When an object is supplied the call goes on without that error, no
    validator and no admin entry is embedded, and the payload is
    [CHAIN_PARAMETERS_PAYLOAD] alone when the object has at least one key
    and empty when the object has none.  When every value of the object is
    an [int], the only errors left are those of the signatures, and with no
    tokens the call returns a hash. *)
Theorem invalid_key_guard (E : Env) (t i k : string) (sigs : list string)
    (d : option json_object) (s : state) :
  IsFullyValid E (ParseHex E k) = false ->
  let out := addcvn E (mkAddParams t i k sigs d) s in
  (d = None -> out = (Throw (invalid_public_key k), s)) /\
  (forall obj,
     d = Some obj ->
     match fst out with Throw (invalid_public_key _) => False | _ => True end /\
     (int32_values obj = true ->
      match fst out with Throw e => signature_error e | _ => True end /\
      (sigs = [] -> exists h, fst out = Ok (RHash h))) /\
     vCvns (msg (snd out)) = [] /\
     vChainAdmins (msg (snd out)) = [] /\
     nPayload (msg (snd out)) =
       (if is_empty obj then 0 else CHAIN_PARAMETERS_PAYLOAD)).
Proof.
  intros Hk out. unfold out. split.
  - intros ->. rewrite addcvn_phases, Hk. reflexivity.
  - intros obj ->. rewrite addcvn_phases, Hk. cbn [negb isNull andb].
    destruct (addcvn_build_invalid_key E t i k (Some obj) s Hk)
      as (r & p & Hp & Hr & Hok).
    cbn [dyn_int32] in Hok.
    rewrite (bind_run _ _ _ _ _ Hp).
    destruct Hr as [->|[->| ->]].
    + destruct (addcvn_finish_frame E i k sigs
                  (mkState
                     (mkChainDataMsg
                        (if is_empty obj then 0 else CHAIN_PARAMETERS_PAYLOAD)
                        (tipHash E) [] [] p []) (trace s)))
        as (Hu & He & _).
      apply unsigned_eq_fields in Hu as (H1 & _ & H3 & H4 & _).
      cbn [msg nPayload vCvns vChainAdmins] in H1, H3, H4.
      repeat split; auto.
      * destruct (fst (addcvn_finish _ _ _ _ _)) as [?|[]|];
          cbn [signature_error] in He; auto; contradiction.
      * intros ->. rewrite addcvn_finish_no_tokens. eauto.
    + cbn [fst snd msg nPayload vCvns vChainAdmins].
      repeat split; auto; specialize (Hok H); discriminate.
    + cbn [fst snd msg nPayload vCvns vChainAdmins].
      repeat split; auto; specialize (Hok H); discriminate.
Qed.

Lemma invalid_key_guard_witness :
  let out :=
    addcvn Example.node
      (mkAddParams "c" "6" "" [] (Some [("nMinCvnSigners", 2); ("foo", 3)]))
      init in
  (exists h, fst out = Ok (RHash h)) /\
  vCvns (msg (snd out)) = [] /\
  vChainAdmins (msg (snd out)) = [] /\
  nPayload (msg (snd out)) = CHAIN_PARAMETERS_PAYLOAD.
Proof.
  cbv zeta.
  destruct (proj2 (invalid_key_guard Example.node "c" "6" "" []
                     (Some [("nMinCvnSigners", 2); ("foo", 3)]) init eq_refl)
              _ eq_refl) as (_ & Hint & Hc & Ha & Hp).
  destruct (Hint eq_refl) as [_ Hh].
  repeat split; auto.
Defined.

(** C10, the counterexample: an invalid (empty) key and an empty object on
    the example node.  The call returns a hash, and the message it has built
    carries no payload at all, the parameters payload included. *)
Lemma invalid_key_with_empty_object :
  let out := addcvn Example.node (mkAddParams "c" "6" "" [] (Some [])) init in
  IsFullyValid Example.node (ParseHex Example.node "") = false /\
  fst out = Ok (RHash (GetHash Example.node (msg (snd out)))) /\
  nPayload (msg (snd out)) = 0 /\
  HasChainParameters (msg (snd out)) = false.
Proof. vm_compute. auto. Qed.

(** ** Further properties *)

Lemma removecvn_finish_frame (E : Env) (i : string) (sigs : list string)
    (s : state) :
  unsigned_eq (msg s) (msg (snd (removecvn_finish E i sigs s))).
Proof.
  unfold removecvn_finish.
  destruct (IsInitialBlockDownload E); [apply unsigned_eq_refl|].
  destruct (is_empty sigs); [apply unsigned_eq_refl|].
  pose proof (AddAdminSignatures_frame E sigs s) as [Hu _].
  destruct (AddAdminSignatures E sigs s) as [r s1] eqn:HA.
  rewrite (bind_run _ _ _ _ _ HA). cbn [snd] in Hu.
  destruct r as [b|e|]; try exact Hu.
  unfold bind, get_msg, call_AddChainData, call_RelayChainData, record, bind,
    ret.
  cbv beta iota.
  destruct (AddChainData E (msg s1)); cbv beta iota; exact Hu.
Qed.

(** X1.  The add path of the rule that a message whose signatures do not
    verify is not handed on: started with an empty trace, if [addcvn] has
    called [CheckAdminSignatures] on [h] and [v] and that verification is
    [false], the call returns "error in signatures" and the verification is
    the only call it has made: neither [AddChainData] nor [RelayChainData]. *)
Theorem addcvn_rejects_bad_signatures (E : Env) (p : addcvn_params)
    (m0 : CChainDataMsg) (h : uint256) (v : list CCvnSignature) :
  let out := addcvn E p (mkState m0 []) in
  In (Call_CheckAdminSignatures h v) (trace (snd out)) ->
  CheckAdminSignatures E h v = false ->
  fst out = Ok (RString "error in signatures") /\
  trace (snd out) = [Call_CheckAdminSignatures h v].
Proof.
  destruct p as [t i k sigs d]. cbv zeta. rewrite addcvn_phases.
  destruct (negb _ && _); [intros []|].
  pose proof (no_call_addcvn_build E t i k d (mkState m0 [])) as Htrace.
  destruct (addcvn_build E t i k d (mkState m0 [])) as [r s1] eqn:Hbuild.
  cbn [snd trace] in Htrace.
  rewrite (bind_run _ _ _ _ _ Hbuild).
  destruct r as [[]|e|]; cbn [fst snd]; try (rewrite Htrace; intros []).
  destruct (addcvn_finish_frame E i k sigs s1)
    as (_ & _ & calls & Hcalls & Hshape).
  rewrite Hcalls, Htrace. cbn [app].
  destruct Hshape as [->|(v0 & rest & -> & Hrest & Hfalse)]; [intros []|].
  intros [Heq|Hin] Hcheck.
  - injection Heq as <- <-. destruct (Hfalse Hcheck) as [-> Hout]. auto.
  - rewrite forallb_forall in Hrest. specialize (Hrest _ Hin). discriminate.
Qed.

Lemma addcvn_rejects_bad_signatures_witness :
  let out :=
    addcvn Example.node
      (mkAddParams "c" "6" "02aa" ["a:00"; "b:01"; "63:02"] None) init in
  fst out = Ok (RString "error in signatures") /\
  trace (snd out) =
    [Call_CheckAdminSignatures 1043811270705
       [mkCvnSignature 10 [x00]; mkCvnSignature 11 [x01];
        mkCvnSignature 99 [x02]]].
Proof.
  apply (addcvn_rejects_bad_signatures Example.node
           (mkAddParams "c" "6" "02aa" ["a:00"; "b:01"; "63:02"] None)
           CChainDataMsg_new);
    vm_compute; auto.
Defined.

(** X2.  [removecvn] on a validator registry that is not empty: an id that
    is not registered ends in "CVN ID not found" with no call made; for an
    id that is registered, whatever happens afterwards, the message holds
    the values of exactly the entries with another key, in key order, one
    fewer than the registry. *)
Theorem removecvn_snapshot_nonempty (E : Env) (t i : string)
    (sigs : list string) (s : state) :
  let out := removecvn E (mkRemoveParams t i sigs) s in
  let id := ReadHexUInt32 E i in
  String.eqb t "a" = false ->
  Map.wf (mapCVNs E) = true ->
  mapCVNs E <> [] ->
  (Map.count id (mapCVNs E) = false ->
   fst out = Throw cvn_id_not_found /\ trace (snd out) = trace s) /\
  (Map.count id (mapCVNs E) = true ->
   vCvns (msg (snd out)) =
     map snd (filter (fun e => fst e <> id) (mapCVNs E)) /\
   Z.of_nat (length (vCvns (msg (snd out)))) = Map.size (mapCVNs E) - 1).
Proof.
  intros out id Ht Hwf Hne. unfold out. split; intros Hcount.
  - rewrite removecvn_cvn_absent by assumption. auto.
  - rewrite removecvn_phases. erewrite bind_Ok.
    2:{ rewrite removecvn_build_cvn by exact Ht.
        rewrite (snapshot_remove_present msg_vCvns) by assumption.
        reflexivity. }
    match goal with |- context [removecvn_finish E i sigs ?s1] =>
      pose proof (removecvn_finish_frame E i sigs s1) as Hu end.
    apply unsigned_eq_fields in Hu as (_ & _ & <- & _).
    cbn [msg vset msg_vCvns vCvns set_vCvns]. split; [reflexivity|].
    unfold Map.wf in Hwf. apply andb_true_iff in Hwf as [Hasc _].
    pose proof (filter_present_length id (mapCVNs E) 0 Hasc Hcount).
    rewrite length_map. unfold Map.size. fold id. lia.
Qed.

Lemma removecvn_snapshot_nonempty_witness :
  fst (removecvn Example.node (mkRemoveParams "c" "63" ["a:00"]) init) =
    Throw cvn_id_not_found /\
  map nNodeId
    (vCvns (msg (snd (removecvn Example.node
                        (mkRemoveParams "c" "3" ["a:00"; "b:01"; "c:02"])
                        init)))) = [1; 2; 4; 5].
Proof.
  split.
  - apply (proj1 (removecvn_snapshot_nonempty Example.node "c" "63" ["a:00"]
                    init eq_refl eq_refl ltac:(discriminate))).
    reflexivity.
  - rewrite (proj1 (proj2 (removecvn_snapshot_nonempty Example.node "c" "3"
                             ["a:00"; "b:01"; "c:02"] init eq_refl eq_refl
                             ltac:(discriminate)) eq_refl)).
    reflexivity.
Defined.

(** X3.  A key of the parameter object that is none of the six member names
    changes nothing. *)
Theorem unknown_parameter_key_ignored (key : string) (v : Z)
    (p : CDynamicChainParams) :
  ~ In key ["nBlockSpacing"; "nBlockSpacingGracePeriod"; "nDustThreshold";
            "nMaxCvnSigners"; "nMinCvnSigners"; "nMinSuccessiveSignatures"] ->
  assign_param key v p = p.
Proof.
  intros Hnot. unfold assign_param.
  repeat match goal with
  | |- context [String.eqb key ?name] =>
      destruct (String.eqb_spec key name) as [->|_];
        [exfalso; apply Hnot; cbn; tauto|]
  end.
  reflexivity.
Qed.

Lemma unknown_parameter_key_ignored_witness :
  assign_param "nParapm1" 123 Example.params = Example.params.
Proof.
  apply unknown_parameter_key_ignored.
  intros Hin. cbn in Hin. repeat destruct Hin as [Hin|Hin]; discriminate || exact Hin.
Defined.



(** * More of the file *)

(** ** AddDynParamsToMsg *)

Lemma params_of_members (p : CDynamicChainParams) :
  p = params_of (fun n =>
        if String.eqb n "nBlockSpacing" then nBlockSpacing p
        else if String.eqb n "nBlockSpacingGracePeriod"
             then nBlockSpacingGracePeriod p
        else if String.eqb n "nDustThreshold" then nDustThreshold p
        else if String.eqb n "nMaxCvnSigners" then nMaxCvnSigners p
        else if String.eqb n "nMinCvnSigners" then nMinCvnSigners p
        else nMinSuccessiveSignatures p).
Proof. destruct p. reflexivity. Qed.

(** One assignment of the [if (key == ...)] chain, on parameters given by
    name: the member called [key], if there is one, takes the value. *)
Lemma assign_param_params_of (key : string) (v : Z) (f : string -> Z) :
  assign_param key v (params_of f) =
    params_of (fun n => if String.eqb key n then Int.to_uint32 v else f n).
Proof.
  unfold assign_param, params_of.
  cbn [nBlockSpacing nBlockSpacingGracePeriod nDustThreshold nMaxCvnSigners
       nMinCvnSigners nMinSuccessiveSignatures].
  repeat match goal with
  | |- context [if String.eqb key ?name then _ else _] =>
      destruct (String.eqb_spec key name) as [->|?]; [reflexivity|]
  end.
  reflexivity.
Qed.

Lemma AddDynParamsToMsg_loop_after_keys (obj : json_object)
    (keys : list string) :
  int32_values obj = true ->
  forall (f : string -> Z) (s : state),
    (forall key, In key keys -> In key (getKeys obj)) ->
    dynamicChainParams (msg s) = params_of f ->
    AddDynParamsToMsg_loop obj keys s =
      (Ok tt,
       mkState (set_dynamicChainParams (params_of (after_keys obj keys f))
                  (msg s))
         (trace s)).
Proof.
  intros Hall. induction keys as [|key rest IH]; intros f s Hsub Hp.
  - cbn [AddDynParamsToMsg_loop after_keys ret]. rewrite <- Hp.
    destruct s as [[] ?]. reflexivity.
  - destruct (find_value_Some obj key (Hsub key (or_introl eq_refl))) as [v Hv].
    cbn [AddDynParamsToMsg_loop after_keys]. unfold bind at 1. unfold lift.
    rewrite Hv. cbn [get_int]. rewrite (find_value_int32 obj key v Hall Hv).
    unfold bind at 1. cbn [modify_msg].
    rewrite Hp, assign_param_params_of.
    rewrite (IH (fun n => if String.eqb key n then Int.to_uint32 v else f n));
      [| intros k' Hk'; apply Hsub; right; exact Hk' | reflexivity].
    cbn [msg trace]. unfold override. rewrite Hv. reflexivity.
Qed.

(** Every assignment for a name stores the same value, the first one listed,
    so the order and the repetitions of the keys do not matter. *)
Lemma after_keys_override (obj : json_object) (keys : list string) :
  forall (f : string -> Z) (n : string),
    after_keys obj keys f n =
      if existsb (fun key => String.eqb key n) keys
      then override obj n (f n) else f n.
Proof.
  induction keys as [|key rest IH]; intros f n; [reflexivity|].
  cbn [after_keys existsb]. rewrite IH.
  destruct (String.eqb_spec key n) as [->|Hne]; cbn [orb]; [|reflexivity].
  destruct (existsb _ rest); [|reflexivity].
  unfold override. destruct (find_value obj n); reflexivity.
Qed.

Lemma existsb_getKeys (obj : json_object) (n : string) :
  existsb (fun key => String.eqb key n) (getKeys obj) = false ->
  find_value obj n = None.
Proof.
  induction obj as [|[k v] rest IH]; intros H; [reflexivity|].
  cbn [getKeys map fst existsb] in H. apply orb_false_iff in H as [Hk Hrest].
  cbn [find_value]. rewrite Hk. apply IH, Hrest.
Qed.

Lemma after_all_keys (obj : json_object) (f : string -> Z) (n : string) :
  after_keys obj (getKeys obj) f n = override obj n (f n).
Proof.
  rewrite after_keys_override.
  destruct (existsb _ (getKeys obj)) eqn:Hin; [reflexivity|].
  unfold override. rewrite (existsb_getKeys obj n Hin). reflexivity.
Qed.

Lemma AddDynParamsToMsg_exact (E : Env) (obj : json_object) (s : state) :
  int32_values obj = true ->
  AddDynParamsToMsg E obj s =
    (Ok tt,
     mkState
       (set_dynamicChainParams (overridden E obj)
          (set_nPayload (Z.lor (nPayload (msg s)) CHAIN_PARAMETERS_PAYLOAD)
             (msg s)))
       (trace s)).
Proof.
  intros Hall. unfold AddDynParamsToMsg.
  unfold bind at 1. cbn [modify_msg]. unfold bind at 1. cbn [modify_msg].
  erewrite AddDynParamsToMsg_loop_after_keys;
    [| exact Hall
     | intros key Hkey; exact Hkey
     | cbn [msg dynamicChainParams set_dynamicChainParams];
       apply (params_of_members
                (mkDynParams (nBlockSpacing (dynParams E))
                   (nBlockSpacingGracePeriod (dynParams E))
                   (nDustThreshold (dynParams E))
                   (nMaxCvnSigners (dynParams E))
                   (nMinCvnSigners (dynParams E))
                   (nMinSuccessiveSignatures (dynParams E))))].
  cbn [msg trace]. unfold params_of. rewrite !after_all_keys. reflexivity.
Qed.

(** X5.  [AddDynParamsToMsg] always succeeds on an object whose values are
    all [int]s (the integers [get_int] accepts).  It
    adds [CHAIN_PARAMETERS_PAYLOAD] to the payload and leaves in
    [msg.dynamicChainParams], for each of the six members, the first value
    the object lists under the member's name, reduced to a [uint32_t], or
    the node's current value when the object does not list that name;
    nothing else in the message changes and no call is made. *)
Theorem AddDynParamsToMsg_overrides (E : Env) (obj : json_object) (s : state) :
  int32_values obj = true ->
  let cur := dynParams E in
  AddDynParamsToMsg E obj s =
    (Ok tt,
     mkState
       (set_dynamicChainParams
          (mkDynParams
             (override obj "nBlockSpacing" (nBlockSpacing cur))
             (override obj "nBlockSpacingGracePeriod"
                (nBlockSpacingGracePeriod cur))
             (override obj "nDustThreshold" (nDustThreshold cur))
             (override obj "nMaxCvnSigners" (nMaxCvnSigners cur))
             (override obj "nMinCvnSigners" (nMinCvnSigners cur))
             (override obj "nMinSuccessiveSignatures"
                (nMinSuccessiveSignatures cur)))
          (set_nPayload (Z.lor (nPayload (msg s)) CHAIN_PARAMETERS_PAYLOAD)
             (msg s)))
       (trace s)).
Proof. intros Hall. by apply AddDynParamsToMsg_exact. Qed.

Lemma AddDynParamsToMsg_overrides_witness :
  AddDynParamsToMsg Example.node
    [("nMinCvnSigners", 2); ("foo", 3); ("nDustThreshold", -1);
     ("nMinCvnSigners", 5)] init =
    (Ok tt,
     mkState
       (set_dynamicChainParams (mkDynParams 180 60 4294967295 7 2 1)
          (set_nPayload CHAIN_PARAMETERS_PAYLOAD CChainDataMsg_new)) []).
Proof.
  apply (AddDynParamsToMsg_overrides Example.node
           [("nMinCvnSigners", 2); ("foo", 3); ("nDustThreshold", -1);
            ("nMinCvnSigners", 5)] init).
  vm_compute. reflexivity.
Defined.

(** ** The calls an RPC makes *)

Lemma AddAdminSignatures_Ok (E : Env) (sigs : list string) (s s1 : state)
    (b : bool) :
  AddAdminSignatures E sigs s = (Ok b, s1) ->
  trace s1 =
    trace s ++ [Call_CheckAdminSignatures (GetHash E (msg s1))
                  (vAdminSignatures (msg s1))] /\
  b = CheckAdminSignatures E (GetHash E (msg s1)) (vAdminSignatures (msg s1)).
Proof.
  intros HA. pose proof (AddAdminSignatures_frame E sigs s) as [Hu Hr].
  rewrite HA in Hu, Hr. cbn [fst snd] in Hu, Hr.
  rewrite <- (GetHash_unsigned_eq E _ _ Hu). exact Hr.
Qed.

Lemma AddAdminSignatures_not_Ok (E : Env) (sigs : list string) (s s1 : state)
    (r : result bool) :
  AddAdminSignatures E sigs s = (r, s1) ->
  (forall b, r <> Ok b) -> trace s1 = trace s.
Proof.
  intros HA Hr. pose proof (AddAdminSignatures_frame E sigs s) as [_ Hf].
  rewrite HA in Hf. cbn [fst snd] in Hf.
  destruct r as [b|e|]; [destruct (Hr b eq_refl) | apply Hf | exact Hf].
Qed.

(** X6.  The calls [addcvn] makes, in the order it makes them, are one of:
    none; the verification alone, when it returned [false] ("error in
    signatures") or the node is downloading (the wait string); the
    verification and [AddChainData], when that returned [false]; the
    verification, [AddChainData] and [RelayChainData].  [AddChainData] is
    only ever given the message whose hash and signatures were just verified
    with result [true], and only when the node is not downloading;
    [RelayChainData] is only given a message [AddChainData] accepted. *)
Theorem addcvn_calls (E : Env) (p : addcvn_params) (s : state) :
  let out := addcvn E p s in
  let m := msg (snd out) in
  let verified := CheckAdminSignatures E (GetHash E m) (vAdminSignatures m) in
  let check := Call_CheckAdminSignatures (GetHash E m) (vAdminSignatures m) in
  trace (snd out) = trace s \/
  (trace (snd out) = trace s ++ [check] /\
   (verified = false \/ IsInitialBlockDownload E = true) /\
   fst out =
     Ok (RString (if verified then wait_for_download
                  else "error in signatures"))) \/
  (verified = true /\ IsInitialBlockDownload E = false /\
   (exists fields, fst out = Ok (RObject fields)) /\
   (trace (snd out) = trace s ++ [check; Call_AddChainData m] /\
    AddChainData E m = false \/
    trace (snd out) =
      trace s ++ [check; Call_AddChainData m; Call_RelayChainData m] /\
    AddChainData E m = true)).
Proof.
  destruct p as [t i k sigs d]. cbv zeta. rewrite addcvn_phases.
  destruct (negb _ && _); [left; reflexivity|].
  pose proof (no_call_addcvn_build E t i k d s) as Htrace.
  destruct (addcvn_build E t i k d s) as [r s1] eqn:Hbuild.
  cbn [snd] in Htrace. rewrite (bind_run _ _ _ _ _ Hbuild).
  destruct r as [[]|e|]; [|left; exact Htrace..].
  rewrite <- Htrace. clear Hbuild Htrace s.
  unfold addcvn_finish. destruct (is_empty sigs); [left; reflexivity|].
  destruct (AddAdminSignatures E sigs s1) as [r s2] eqn:HA.
  rewrite (bind_run _ _ _ _ _ HA).
  destruct r as [b|e|];
    [|left; apply (AddAdminSignatures_not_Ok E sigs s1 _ _ HA); congruence..].
  destruct (AddAdminSignatures_Ok E sigs s1 s2 b HA) as [Ht Hb].
  right. destruct b; cbn [negb].
  - unfold bind, get_msg, call_AddChainData, call_RelayChainData, record,
      bind, ret.
    cbv beta iota.
    destruct (IsInitialBlockDownload E);
      [|destruct (AddChainData E (msg s2)) eqn:Hadd];
      cbv beta iota; cbn [fst snd msg trace]; rewrite <- Hb.
    + left. auto.
    + right. rewrite Hadd, Ht, <- !app_assoc. cbn [app]. eauto 10.
    + right. rewrite Hadd, Ht, <- !app_assoc. cbn [app]. eauto 10.
  - left. cbn [ret fst snd]. rewrite <- Hb. auto.
Qed.

(** X7.  [removecvn] makes no call at all while the node is downloading.
    When it makes calls they are the verification, then [AddChainData] on
    the message, then [RelayChainData] on it if and only if [AddChainData]
    returned [true]; the result of the verification plays no part, and the
    call returns the object with the id. *)
Theorem removecvn_calls (E : Env) (p : removecvn_params) (s : state) :
  let out := removecvn E p s in
  let m := msg (snd out) in
  let check := Call_CheckAdminSignatures (GetHash E m) (vAdminSignatures m) in
  trace (snd out) = trace s \/
  (IsInitialBlockDownload E = false /\
   fst out = Ok (RObject [("Id", FId (ReadHexUInt32 E (rem_id p)))]) /\
   (trace (snd out) = trace s ++ [check; Call_AddChainData m] /\
    AddChainData E m = false \/
    trace (snd out) =
      trace s ++ [check; Call_AddChainData m; Call_RelayChainData m] /\
    AddChainData E m = true)).
Proof.
  destruct p as [t i sigs]. cbv zeta. rewrite removecvn_phases.
  pose proof (no_call_removecvn_build E t i s) as Htrace.
  destruct (removecvn_build E t i s) as [r s1] eqn:Hbuild.
  cbn [snd] in Htrace. rewrite (bind_run _ _ _ _ _ Hbuild).
  destruct r as [[]|e|]; [|left; exact Htrace..].
  rewrite <- Htrace. clear Hbuild Htrace s.
  unfold removecvn_finish.
  destruct (IsInitialBlockDownload E); [left; reflexivity|].
  destruct (is_empty sigs); [left; reflexivity|].
  destruct (AddAdminSignatures E sigs s1) as [r s2] eqn:HA.
  rewrite (bind_run _ _ _ _ _ HA).
  destruct r as [b|e|];
    [|left; apply (AddAdminSignatures_not_Ok E sigs s1 _ _ HA); congruence..].
  destruct (AddAdminSignatures_Ok E sigs s1 s2 b HA) as [Ht Hb].
  right. split; [reflexivity|].
  unfold bind, get_msg, call_AddChainData, call_RelayChainData, record,
    bind, ret.
  cbv beta iota.
  destruct (AddChainData E (msg s2)) eqn:Hadd;
    cbv beta iota; cbn [fst snd msg trace rem_id];
    (split; [reflexivity|]); rewrite Hadd, Ht, <- !app_assoc; cbn [app]; auto.
Qed.

(** ** The message addcvn builds *)

Lemma addcvn_build_valid_key (E : Env) (t i k : string)
    (d : option json_object) (s : state) :
  IsFullyValid E (ParseHex E k) = true ->
  Map.size (mapCVNs E) < 2 ^ 32 ->
  Map.size (mapChainAdmins E) < 2 ^ 32 ->
  dyn_int32 d = true ->
  addcvn_build E t i k d s =
    (Ok tt, mkState (addcvn_message E t i k d) (trace s)).
Proof.
  intros Hk Hc Ha Hd. unfold addcvn_build, addcvn_message. rewrite Hk.
  unfold bind at 1. cbn [modify_msg]. unfold bind at 1. cbn [modify_msg].
  cbv zeta.
  destruct (String.eqb t "a"); cbn [negb];
    [ erewrite bind_Ok by (apply AddChainAdminToMsg_run, Ha)
    | erewrite bind_Ok by (apply AddCvnInfoToMsg_run, Hc) ];
    (destruct d as [[|kv obj]|]; cbn [getKeys map is_empty negb ret];
     rewrite ?AddDynParamsToMsg_exact by exact Hd; reflexivity).
Qed.

(** X8.  With a fully valid key, no token and a parameter object, if there
    is one, whose values are all [int]s, [addcvn] returns the hash of
    this message: the tip's block hash as [hashPrevBlock]; for type "a" the
    admin registry followed by the new admin and no validator, for any other
    type the validator registry followed by the new validator, added at the
    tip's height plus one, and no admin; the parameters payload beside the
    registry payload, with the overridden parameters, exactly when the fifth
    argument is an object with at least one key; no signature. *)
Theorem addcvn_signing_message (E : Env) (t i k : string)
    (d : option json_object) (s : state) :
  IsFullyValid E (ParseHex E k) = true ->
  Map.size (mapCVNs E) < 2 ^ 32 ->
  Map.size (mapChainAdmins E) < 2 ^ 32 ->
  dyn_int32 d = true ->
  let id := ReadHexUInt32 E i in
  let pk := ParseHex E k in
  let admin := String.eqb t "a" in
  let with_params :=
    match d with Some (_ :: _) => true | _ => false end in
  let m :=
    mkChainDataMsg
      (Z.lor (if admin then CHAIN_ADMINS_PAYLOAD else CVN_PAYLOAD)
         (if with_params then CHAIN_PARAMETERS_PAYLOAD else 0))
      (tipHash E)
      (if admin then []
       else map snd (mapCVNs E) ++
            [mkCvnInfo id (Int.to_uint32 (tipHeight E + 1)) pk])
      (if admin then map snd (mapChainAdmins E) ++ [mkChainAdmin id pk]
       else [])
      (match d with
       | Some (kv :: obj) => overridden E (kv :: obj)
       | _ => CDynamicChainParams_default
       end)
      [] in
  addcvn E (mkAddParams t i k [] d) s =
    (Ok (RHash (GetHash E m)), mkState m (trace s)).
Proof.
  intros Hk Hc Ha Hd id pk admin with_params m.
  rewrite addcvn_phases, Hk. cbn [negb andb].
  rewrite (bind_Ok _ _ _ _ _ (addcvn_build_valid_key E t i k d s Hk Hc Ha Hd)).
  apply addcvn_finish_no_tokens.
Qed.

Lemma addcvn_signing_message_witness :
  fst (addcvn Example.node
         (mkAddParams "c" "6" "02aa" [] (Some [("nMinCvnSigners", 2)])) init) =
    Ok (RHash
          (GetHash Example.node
             (mkChainDataMsg 5 7777
                (map snd Example.validators ++ [mkCvnInfo 6 121 [x02; xaa]])
                [] (mkDynParams 180 60 10000 7 2 1) []))).
Proof.
  rewrite (addcvn_signing_message Example.node "c" "6" "02aa"
             (Some [("nMinCvnSigners", 2)]) init);
    vm_compute; reflexivity.
Defined.

(** ** Removing a chain admin *)

Lemma removecvn_admin_absent (E : Env) (i : string) (sigs : list string)
    (s : state) :
  Map.wf (mapChainAdmins E) = true -> mapChainAdmins E <> [] ->
  Map.count (ReadHexUInt32 E i) (mapChainAdmins E) = false ->
  removecvn E (mkRemoveParams "a" i sigs) s =
    (Throw admin_id_not_found,
     mkState
       (set_vChainAdmins
          (replicate (Z.to_nat (Map.size (mapChainAdmins E) - 1))
             CChainAdmin_default)
          (removal_header E CHAIN_ADMINS_PAYLOAD))
       (trace s)).
Proof.
  intros Hwf Hne Hcount. rewrite removecvn_phases.
  apply bind_Throw. rewrite removecvn_build_admin.
  rewrite (snapshot_remove_absent msg_vChainAdmins) by assumption.
  cbn [vget vset vdefault msg_vChainAdmins msg trace].
  change (vChainAdmins (removal_header E CHAIN_ADMINS_PAYLOAD))
    with (@nil CChainAdmin).
  rewrite resize_nil. reflexivity.
Qed.

(** X9.  [removecvn] with type "a" works on the admin registry alone.  On a
    registry that is not empty, an id that is not registered ends in "Admin
    ID not found" with no call made; for a registered id, whatever happens
    afterwards, the message carries the admin payload only, holds the values
    of exactly the admins with another key, in key order, one fewer than the
    registry, and holds no validator. *)
Theorem removecvn_admin_snapshot (E : Env) (i : string) (sigs : list string)
    (s : state) :
  let out := removecvn E (mkRemoveParams "a" i sigs) s in
  let id := ReadHexUInt32 E i in
  Map.wf (mapChainAdmins E) = true ->
  mapChainAdmins E <> [] ->
  (Map.count id (mapChainAdmins E) = false ->
   fst out = Throw admin_id_not_found /\ trace (snd out) = trace s) /\
  (Map.count id (mapChainAdmins E) = true ->
   vChainAdmins (msg (snd out)) =
     map snd (filter (fun e => fst e <> id) (mapChainAdmins E)) /\
   Z.of_nat (length (vChainAdmins (msg (snd out)))) =
     Map.size (mapChainAdmins E) - 1 /\
   vCvns (msg (snd out)) = [] /\
   nPayload (msg (snd out)) = CHAIN_ADMINS_PAYLOAD).
Proof.
  intros out id Hwf Hne. unfold out. split; intros Hcount.
  - rewrite removecvn_admin_absent by assumption. auto.
  - rewrite removecvn_phases. erewrite bind_Ok.
    2:{ rewrite removecvn_build_admin.
        rewrite (snapshot_remove_present msg_vChainAdmins) by assumption.
        reflexivity. }
    match goal with |- context [removecvn_finish E i sigs ?s1] =>
      pose proof (removecvn_finish_frame E i sigs s1) as Hu end.
    apply unsigned_eq_fields in Hu as (<- & _ & <- & <- & _).
    cbn [msg vset msg_vChainAdmins vChainAdmins set_vChainAdmins].
    repeat split.
    unfold Map.wf in Hwf. apply andb_true_iff in Hwf as [Hasc _].
    pose proof (filter_present_length id (mapChainAdmins E) 0 Hasc Hcount).
    rewrite length_map. unfold Map.size. fold id. lia.
Qed.

Lemma removecvn_admin_snapshot_witness :
  fst (removecvn Example.node (mkRemoveParams "a" "63" ["a:00"]) init) =
    Throw admin_id_not_found /\
  map nAdminId
    (vChainAdmins (msg (snd (removecvn Example.node
                               (mkRemoveParams "a" "b"
                                  ["a:00"; "c:01"; "d:02"]) init)))) =
    [10; 12; 13].
Proof.
  split.
  - apply (proj1 (removecvn_admin_snapshot Example.node "63" ["a:00"] init
                    eq_refl ltac:(discriminate))).
    reflexivity.
  - rewrite (proj1 (proj2 (removecvn_admin_snapshot Example.node "b"
                             ["a:00"; "c:01"; "d:02"] init eq_refl
                             ltac:(discriminate)) eq_refl)).
    reflexivity.
Defined.

(** ** boost::split, back and forth *)

Lemma split_nonempty (c : ascii) (s : string) : split c s <> [].
Proof.
  intros H. pose proof (split_length c s) as Hl. rewrite H in Hl. discriminate.
Qed.

Lemma join_cons (c : ascii) (p : string) (rest : list string) :
  rest <> [] -> join c (p :: rest) = (p ++ String c (join c rest))%string.
Proof. destruct rest; [contradiction|reflexivity]. Qed.

(** X10.  The parts [boost::split] yields, joined again with the separator,
    are the string that was split, and no part contains the separator: a
    token is cut at every colon and nowhere else, and nothing of it is
    dropped. *)
Theorem split_join (c : ascii) (s : string) :
  join c (split c s) = s /\
  Forall (fun part => occurrences c part = 0%nat) (split c s).
Proof.
  induction s as [|x rest [IHj IHf]]; [by repeat constructor|].
  rewrite split_cons. destruct (Ascii.eqb_spec x c) as [->|Hne].
  - split.
    + rewrite join_cons by apply split_nonempty. rewrite IHj. reflexivity.
    + constructor; [reflexivity|exact IHf].
  - pose proof (split_nonempty c rest) as Hn.
    destruct (split c rest) as [|tok toks]; [contradiction|].
    apply Forall_cons in IHf as [Htok Htoks]. split.
    + destruct toks as [|t2 toks]; cbn [join] in *; [by rewrite IHj|].
      cbn [String.append]. by rewrite IHj.
    + constructor; [|exact Htoks]. cbn [occurrences].
      destruct (Ascii.eqb_spec x c); [contradiction|exact Htok].
Qed.

(** ** The entry points on arguments of the documented types *)

Lemma liftM_bind {A B} (c : M A) (k : A -> M B) (s : state) :
  Raw.liftM (bind c k) s =
    Raw.rbind (Raw.liftM c) (fun a => Raw.liftM (k a)) s.
Proof.
  unfold Raw.liftM, Raw.rbind, bind. destruct (c s) as [[a|e|] s1]; reflexivity.
Qed.

Lemma rbind_ext {A B} (c c' : Raw.R A) (k k' : A -> Raw.R B) (s : state) :
  (forall s, c s = c' s) -> (forall a s, k a s = k' a s) ->
  Raw.rbind c k s = Raw.rbind c' k' s.
Proof.
  intros Hc Hk. unfold Raw.rbind. rewrite Hc.
  destruct (c' s) as [[a|e|] s1]; [apply Hk|reflexivity..].
Qed.

Lemma liftM_if {A} (b : bool) (c1 c2 : M A) (s : state) :
  Raw.liftM (if b then c1 else c2) s =
    (if b then Raw.liftM c1 else Raw.liftM c2) s.
Proof. destruct b; reflexivity. Qed.

(** One step of a proof that an entry point runs the code above. *)
Ltac lift_step :=
  first
    [ reflexivity
    | rewrite liftM_bind; apply rbind_ext; intros ].

Lemma Raw_parse_signatures_tokens (E : Env) (sigs : list string) :
  forall (i stale : Z) (s : state),
    Raw.parse_signatures E (json_tokens sigs) i stale s =
    Raw.liftM (parse_signatures E sigs i stale) s.
Proof.
  induction sigs as [|strSig rest IH]; intros i stale s; [reflexivity|].
  cbn [json_tokens map Raw.parse_signatures parse_signatures Raw.get_str].
  change (Raw.rbind (Raw.rret strSig) ?k s) with (k strSig s). cbv beta.
  repeat lift_step. apply IH.
Qed.

Lemma Raw_AddAdminSignatures_tokens (E : Env) (sigs : list string)
    (s : state) :
  Raw.AddAdminSignatures E (json_tokens sigs) s =
  Raw.liftM (AddAdminSignatures E sigs) s.
Proof.
  unfold Raw.AddAdminSignatures, AddAdminSignatures, json_tokens.
  rewrite length_map.
  destruct (_ <? nMinCvnSigners _); [reflexivity|].
  destruct (nMaxCvnSigners _ <? _); [reflexivity|].
  repeat lift_step. apply Raw_parse_signatures_tokens.
Qed.

Lemma Raw_find_value_members (obj : json_object) (key : string) :
  Raw.find_value (json_members obj) key =
    match find_value obj key with Some z => VNUM z | None => VNULL end.
Proof.
  induction obj as [|[k v] rest IH]; [reflexivity|].
  cbn. destruct (String.eqb k key); [reflexivity|exact IH].
Qed.

Lemma Raw_AddDynParamsToMsg_loop_members (obj : json_object)
    (keys : list string) :
  int32_values obj = true ->
  forall s,
    Raw.AddDynParamsToMsg_loop (json_members obj) keys s =
    Raw.liftM (AddDynParamsToMsg_loop obj keys) s.
Proof.
  intros Hall. induction keys as [|key rest IH]; intros s; [reflexivity|].
  cbn [Raw.AddDynParamsToMsg_loop AddDynParamsToMsg_loop].
  rewrite Raw_find_value_members.
  destruct (find_value obj key) as [z|] eqn:Hfind; [|reflexivity].
  cbn [Raw.get_int]. rewrite (find_value_int32 obj key z Hall Hfind).
  change (Raw.rbind (Raw.rret z) ?k s) with (k z s). cbv beta.
  rewrite liftM_bind. unfold lift at 1, get_int at 1.
  rewrite (find_value_int32 obj key z Hall Hfind).
  change (Raw.rbind (Raw.liftM (fun s0 => (Ok z, s0))) ?k s) with (k z s).
  cbv beta. repeat lift_step. apply IH.
Qed.

Lemma Raw_getKeys_members (obj : json_object) :
  Raw.getKeys (json_members obj) = getKeys obj.
Proof.
  unfold Raw.getKeys, getKeys, json_members. rewrite map_map. reflexivity.
Qed.

Lemma Raw_AddDynParamsToMsg_members (E : Env) (obj : json_object) (s : state) :
  int32_values obj = true ->
  Raw.AddDynParamsToMsg E (json_members obj) s =
  Raw.liftM (AddDynParamsToMsg E obj) s.
Proof.
  intros Hall. unfold Raw.AddDynParamsToMsg, AddDynParamsToMsg.
  rewrite Raw_getKeys_members.
  repeat lift_step. by apply Raw_AddDynParamsToMsg_loop_members.
Qed.

Lemma rbind_rret {A B} (a : A) (k : A -> Raw.R B) (s : state) :
  Raw.rbind (Raw.rret a) k s = k a s.
Proof. reflexivity. Qed.

Lemma is_empty_json_tokens (sigs : list string) :
  is_empty (json_tokens sigs) = is_empty sigs.
Proof. destruct sigs; reflexivity. Qed.

(** X11.  Called with arguments of the documented types (three strings, an
    array of string tokens and, optionally, an object whose values are
    [int32_t] integers), the entry point [addcvn] raises no usage or type
    error and does exactly what the body modelled by [addcvn] does on the
    strings, tokens and integers. *)
Theorem Raw_addcvn_documented_types (E : Env) (p : addcvn_params) (s : state) :
  (forall obj, add_dyn p = Some obj -> int32_values obj = true) ->
  Raw.addcvn E (addcvn_json p) false s = Raw.liftM (addcvn E p) s.
Proof.
  destruct p as [t i k sigs d]. cbn [add_dyn]. intros Hint.
  unfold Raw.addcvn, addcvn, addcvn_json.
  cbn [add_type add_id add_pubkey add_sigs add_dyn].
  replace (false || _ || _) with false by (destruct d; reflexivity).
  cbn [app Raw.at_index nth Raw.get_str Raw.get_array].
  rewrite !rbind_rret.
  replace (Raw.isNull _) with (isNull d) by (destruct d; reflexivity).
  rewrite liftM_if. destruct (negb _ && _); [reflexivity|].
  rewrite rbind_rret, is_empty_json_tokens.
  do 3 (lift_step; [reflexivity|]).
  lift_step.
  { destruct d as [obj|]; cbn [app nth]; [|reflexivity].
    rewrite Raw_getKeys_members.
    destruct (negb (is_empty (getKeys obj))); [|reflexivity].
    apply Raw_AddDynParamsToMsg_members, Hint. reflexivity. }
  destruct (is_empty sigs); [reflexivity|].
  lift_step; [apply Raw_AddAdminSignatures_tokens|].
  destruct (negb a3); [reflexivity|].
  lift_step; [reflexivity|].
  destruct (IsInitialBlockDownload E); [reflexivity|].
  repeat lift_step.
Qed.

Lemma Raw_addcvn_documented_types_witness :
  Raw.addcvn Example.node
    [VSTR "c"; VSTR "6"; VSTR "02aa"; VARR [VSTR "a:00"; VSTR "b:01"; VSTR "c:02"];
     VOBJ [("nMinCvnSigners", VNUM 2)]] false init =
  Raw.liftM
    (addcvn Example.node
       (mkAddParams "c" "6" "02aa" ["a:00"; "b:01"; "c:02"]
          (Some [("nMinCvnSigners", 2)]))) init.
Proof.
  apply (Raw_addcvn_documented_types Example.node
           (mkAddParams "c" "6" "02aa" ["a:00"; "b:01"; "c:02"]
              (Some [("nMinCvnSigners", 2)])) init).
  intros obj [= <-]. reflexivity.
Defined.

(** X12.  Called with two strings and an array of string tokens, the entry
    point [removecvn] raises no usage or type error and does exactly what
    the body modelled by [removecvn] does on the strings and tokens. *)
Theorem Raw_removecvn_documented_types (E : Env) (p : removecvn_params)
    (s : state) :
  Raw.removecvn E (removecvn_json p) false s = Raw.liftM (removecvn E p) s.
Proof.
  destruct p as [t i sigs].
  unfold Raw.removecvn, removecvn, removecvn_json.
  cbn [rem_type rem_id rem_sigs length Nat.eqb negb orb
       Raw.at_index nth Raw.get_str Raw.get_array].
  rewrite !rbind_rret, is_empty_json_tokens.
  do 5 (lift_step; [reflexivity|]).
  destruct (IsInitialBlockDownload E); [reflexivity|].
  destruct (is_empty sigs); [reflexivity|].
  lift_step; [apply Raw_AddAdminSignatures_tokens|].
  repeat lift_step.
Qed.

(** ** AddDynParamsToMsg on values that are no integers *)

Lemma Raw_AddDynParamsToMsg_loop_prefix (obj : list (string * UniValue))
    (pre : list string) :
  forall (rest : list string) (s : state),
    forallb (fun k => is_int32 (Raw.find_value obj k)) pre = true ->
    exists p,
      Raw.AddDynParamsToMsg_loop obj (pre ++ rest) s =
      Raw.AddDynParamsToMsg_loop obj rest
        (mkState (set_dynamicChainParams p (msg s)) (trace s)).
Proof.
  induction pre as [|key pre IH]; intros rest s Hall.
  - exists (dynamicChainParams (msg s)). destruct s as [[] ?]. reflexivity.
  - cbn [forallb] in Hall. apply andb_true_iff in Hall as [Hkey Hall].
    cbn [app Raw.AddDynParamsToMsg_loop].
    destruct (Raw.find_value obj key) as [| |z| | |]; try discriminate.
    cbn [is_int32] in Hkey. cbn [Raw.get_int]. rewrite Hkey.
    rewrite rbind_rret.
    unfold Raw.rbind at 1. unfold Raw.liftM at 1. cbn [modify_msg].
    destruct (IH rest
                (mkState
                   (set_dynamicChainParams
                      (assign_param key z (dynamicChainParams (msg s)))
                      (msg s)) (trace s)) Hall) as [p Hp].
    rewrite Hp. cbn [msg trace]. eexists. reflexivity.
Qed.

(** X13.  [AddDynParamsToMsg] evaluates [get_int] on the value of every key
    of the object, in the order listed and whether or not the key is one of
    the six member names.  At the first key whose value is no [int32_t]
    integer it ends with the error of [get_int] ("JSON value is not an
    integer as expected", or "JSON integer out of range" for a number), with
    no call made. *)
Theorem non_integer_parameter_aborts (E : Env)
    (obj : list (string * UniValue)) (pre post : list string) (key : string)
    (s : state) :
  Raw.getKeys obj = pre ++ key :: post ->
  forallb (fun k => is_int32 (Raw.find_value obj k)) pre = true ->
  is_int32 (Raw.find_value obj key) = false ->
  let out := Raw.AddDynParamsToMsg E obj s in
  fst out =
    Raise (match Raw.find_value obj key with
           | VNUM _ => integer_out_of_range
           | _ => raised json_not_an_integer
           end) /\
  trace (snd out) = trace s.
Proof.
  intros Hkeys Hpre Hkey. cbv zeta.
  assert (exists s',
            Raw.AddDynParamsToMsg E obj s =
              (Raise (match Raw.find_value obj key with
                      | VNUM _ => integer_out_of_range
                      | _ => raised json_not_an_integer
                      end), s') /\ trace s' = trace s) as (s' & -> & Ht);
    [|split; [reflexivity|exact Ht]].
  unfold Raw.AddDynParamsToMsg. rewrite Hkeys.
  unfold Raw.rbind at 1. unfold Raw.liftM at 1. cbn [modify_msg].
  unfold Raw.rbind at 1. unfold Raw.liftM at 1. cbn [modify_msg].
  match goal with |- context [Raw.AddDynParamsToMsg_loop obj _ ?s0] =>
    destruct (Raw_AddDynParamsToMsg_loop_prefix obj pre (key :: post) s0 Hpre)
      as [p Hp]
  end.
  rewrite Hp. cbn [Raw.AddDynParamsToMsg_loop msg trace].
  destruct (Raw.find_value obj key) as [| |z| | |]; cbn [is_int32] in Hkey;
    try discriminate; cbn [Raw.get_int]; rewrite ?Hkey;
    unfold Raw.rbind, Raw.raise; eexists; split; reflexivity.
Qed.

Lemma non_integer_parameter_aborts_witness :
  let out :=
    Raw.AddDynParamsToMsg Example.node
      [("nMinCvnSigners", VNUM 2); ("nParapm1", VSTR "123")] init in
  fst out = Raise (raised json_not_an_integer) /\ trace (snd out) = [].
Proof.
  apply (non_integer_parameter_aborts Example.node
           [("nMinCvnSigners", VNUM 2); ("nParapm1", VSTR "123")]
           ["nMinCvnSigners"] [] "nParapm1" init); reflexivity.
Defined.

(** ** A fifth argument that is no object *)

(** X14.  The guard on the public key only asks whether the fifth argument
    is null.  With a key that is not fully valid, no token, and a fifth
    argument that is neither null nor an object with at least one key (a
    number, a string, a boolean, an array, the empty object), [addcvn]
    returns the hash of a message that carries nothing but the tip's block
    hash: no payload flag, no entry, no parameters. *)
Theorem invalid_key_with_any_fifth_argument (E : Env) (t i k : string)
    (v : UniValue) (s : state) :
  IsFullyValid E (ParseHex E k) = false ->
  match v with VNULL | VOBJ (_ :: _) => False | _ => True end ->
  let m := set_hashPrevBlock (tipHash E) CChainDataMsg_new in
  Raw.addcvn E [VSTR t; VSTR i; VSTR k; VARR []; v] false s =
    (Done (RHash (GetHash E m)), mkState m (trace s)).
Proof.
  intros Hk Hv. cbv zeta. unfold Raw.addcvn.
  cbn [length Nat.ltb Nat.leb orb Raw.at_index nth Raw.get_str Raw.get_array].
  rewrite !rbind_rret, Hk.
  replace (negb false && Raw.isNull v) with false
    by (destruct v; first [reflexivity | contradiction]).
  rewrite rbind_rret.
  destruct v as [| | | | |[|kv obj]]; first [contradiction | reflexivity].
Qed.

Lemma invalid_key_with_any_fifth_argument_witness :
  Raw.addcvn Example.node [VSTR "c"; VSTR "6"; VSTR ""; VARR []; VNUM 3]
    false init =
    (Done (RHash (GetHash Example.node
                    (set_hashPrevBlock 7777 CChainDataMsg_new))),
     mkState (set_hashPrevBlock 7777 CChainDataMsg_new) []).
Proof.
  apply (invalid_key_with_any_fifth_argument Example.node "c" "6" "" (VNUM 3)
           init); [reflexivity | exact I].
Defined.

(** ** A token that is no string *)




(** ** signchaindata *)

Lemma occurrences_app (c : ascii) (a b : string) :
  occurrences c (a ++ b)%string = (occurrences c a + occurrences c b)%nat.
Proof.
  induction a as [|x a IH]; [reflexivity|].
  cbn [String.append occurrences]. destruct (Ascii.eqb x c); lia.
Qed.

Lemma split_app_sep (c : ascii) (a b : string) :
  occurrences c a = 0%nat ->
  split c (a ++ String c b)%string = a :: split c b.
Proof.
  induction a as [|x a IH]; intros Ha.
  - cbn [String.append]. rewrite split_cons, Ascii.eqb_refl. reflexivity.
  - cbn [occurrences] in Ha. cbn [String.append]. rewrite split_cons.
    destruct (Ascii.eqb x c); [discriminate|].
    rewrite (IH Ha). reflexivity.
Qed.

Lemma string_app_assoc (a b c : string) :
  ((a ++ b) ++ c)%string = (a ++ (b ++ c))%string.
Proof. induction a as [|x a IH]; cbn; [reflexivity|by rewrite IH]. Qed.

(** X16.  When the private key parses, the signing succeeds and the fresh
    signature verifies for the admin id, [signchaindata] returns, between
    two double quotes, the token [id:hex] made of the id string as given and
    the hexadecimal form of the signature.  If the id string has no colon
    and no NUL and is not blank (so that both extractions store an id), the
    hexadecimal form has no colon and [ParseHex] reads it back,
    [AddAdminSignatures] turns that token into the very signature that was
    verified, whatever its place among the tokens.  If the id string has a
    colon, the token is one [AddAdminSignatures] refuses. *)
Theorem signchaindata_token (E : Env) (K : Keys) (strHash strId strKey : string)
    (key : CKey K) (vSignature : bytes) (s : state) :
  let hashChainData := uint256S K strHash in
  let sig := mkCvnSignature (ReadHexUInt32 E strId) vSignature in
  let token := (strId ++ String colon (HexStr K vSignature))%string in
  SetString K strKey = Some key ->
  Sign K key hashChainData = Some vSignature ->
  CvnVerifyAdminSignature K hashChainData sig = true ->
  occurrences colon (HexStr K vSignature) = 0%nat ->
  ParseHex E (HexStr K vSignature) = vSignature ->
  Raw.signchaindata E K [VSTR strHash; VSTR strId; VSTR strKey] false s =
    (Done (RString (String Raw.quote (token ++ String Raw.quote ""))), s) /\
  (occurrences colon strId = 0%nat ->
   c_str strId = strId ->
   blank strId = false ->
   forall stale i, parse_signature E stale i token = Ok sig) /\
  (occurrences colon strId <> 0%nat ->
   forall stale i,
     parse_signature E stale i token =
       Throw (invalid_signature_format (Int.to_uint32 (i + 1)))).
Proof.
  intros hashChainData sig token Hkey Hsign Hverify Hhex Hparse.
  split; [|split].
  - unfold Raw.signchaindata.
    cbn [length Nat.eqb negb orb Raw.at_index nth Raw.get_str].
    rewrite !rbind_rret, Hkey. fold hashChainData. rewrite Hsign.
    fold sig. rewrite Hverify. cbn [negb]. unfold token.
    rewrite string_app_assoc. reflexivity.
  - intros Hid Hnul Hblank stale i. rewrite parse_signature_two_parts.
    + unfold decode, extract_hex, token. rewrite split_app_sep by exact Hid.
      rewrite (split_none colon _ Hhex). cbn [nth].
      rewrite Hnul, Hblank, Hparse. reflexivity.
    + apply two_parts_occurrences. unfold token.
      rewrite occurrences_app. cbn [occurrences]. rewrite Ascii.eqb_refl. lia.
  - intros Hid stale i. apply parse_signature_other.
    destruct (two_parts token) eqn:Htwo; [|reflexivity].
    apply two_parts_occurrences in Htwo. unfold token in Htwo.
    rewrite occurrences_app in Htwo. cbn [occurrences] in Htwo.
    rewrite Ascii.eqb_refl in Htwo. lia.
Qed.

Lemma signchaindata_token_witness :
  Raw.signchaindata Example.node Example.keys
    [VSTR "1f"; VSTR "a"; VSTR "0123"] false init =
    (Done (RString (String Raw.quote ("a:42" ++ String Raw.quote ""))), init) /\
  parse_signature Example.node 48879 0 "a:42" =
    Ok (mkCvnSignature 10 ["B"%byte]).
Proof.
  destruct (signchaindata_token Example.node Example.keys "1f" "a" "0123"
              291 ["B"%byte] init eq_refl eq_refl eq_refl eq_refl eq_refl)
    as (Hrun & Hparse & _).
  split; [exact Hrun | exact (Hparse eq_refl eq_refl eq_refl 48879 0)].
Defined.

(** ** The usage text *)

Lemma no_usage_rret {A} (a : A) : no_usage (Raw.rret a).
Proof. intros s rpc. discriminate. Qed.

Lemma no_usage_raise {A} (e : rpc_error) :
  match e with usage _ => False | _ => True end ->
  no_usage (@Raw.raise A e).
Proof. intros He s rpc. cbn. intros [= ->]. exact He. Qed.

Lemma no_usage_liftM {A} (c : M A) : no_usage (Raw.liftM c).
Proof.
  intros s rpc. unfold Raw.liftM. destruct (c s) as [[a|e|] s']; discriminate.
Qed.

Lemma no_usage_rbind {A B} (c : Raw.R A) (k : A -> Raw.R B) :
  no_usage c -> (forall a, no_usage (k a)) -> no_usage (Raw.rbind c k).
Proof.
  intros Hc Hk s rpc. unfold Raw.rbind.
  specialize (Hc s rpc). destruct (c s) as [[a|e|] s']; cbn in *.
  - apply Hk.
  - intros [= ->]. apply Hc. reflexivity.
  - discriminate.
Qed.

Lemma no_usage_get_str (v : UniValue) : no_usage (Raw.get_str v).
Proof.
  destruct v; first [apply no_usage_rret | apply no_usage_raise; exact I].
Qed.

Lemma no_usage_get_array (v : UniValue) : no_usage (Raw.get_array v).
Proof.
  destruct v; first [apply no_usage_rret | apply no_usage_raise; exact I].
Qed.

Lemma no_usage_get_int (v : UniValue) : no_usage (Raw.get_int v).
Proof.
  destruct v as [| |z| | |]; cbn [Raw.get_int];
    try (apply no_usage_raise; exact I).
  destruct (Int.in_int32 z);
    first [apply no_usage_rret | apply no_usage_raise; exact I].
Qed.

Ltac as_no_usage s :=
  let rpc' := fresh "rpc'" in
  intros rpc'; revert s rpc';
  match goal with
  | |- forall s rpc, fst (?c s) <> Raise (usage rpc) => change (no_usage c)
  end.

Ltac no_usage_step :=
  first
    [ apply no_usage_rbind; [|intros ?]
    | apply no_usage_rret
    | apply no_usage_liftM
    | apply no_usage_get_str
    | apply no_usage_get_array
    | apply no_usage_get_int
    | apply no_usage_raise; exact I ].

Lemma no_usage_parse_signatures (E : Env) (sigs : list UniValue) :
  forall i stale, no_usage (Raw.parse_signatures E sigs i stale).
Proof.
  induction sigs as [|v rest IH]; intros i stale; cbn [Raw.parse_signatures].
  - apply no_usage_rret.
  - repeat no_usage_step. apply IH.
Qed.

Lemma no_usage_AddAdminSignatures (E : Env) (sigs : list UniValue) :
  no_usage (Raw.AddAdminSignatures E sigs).
Proof.
  unfold Raw.AddAdminSignatures.
  destruct (_ <? _); [apply no_usage_raise; exact I|].
  destruct (_ <? _); [apply no_usage_raise; exact I|].
  no_usage_step; [no_usage_step|].
  no_usage_step; [apply no_usage_parse_signatures|].
  repeat no_usage_step.
Qed.

Lemma no_usage_AddDynParamsToMsg_loop (obj : list (string * UniValue))
    (keys : list string) :
  no_usage (Raw.AddDynParamsToMsg_loop obj keys).
Proof.
  induction keys as [|key rest IH]; cbn [Raw.AddDynParamsToMsg_loop].
  - apply no_usage_rret.
  - repeat no_usage_step. exact IH.
Qed.

Lemma no_usage_AddDynParamsToMsg (E : Env) (obj : list (string * UniValue)) :
  no_usage (Raw.AddDynParamsToMsg E obj).
Proof.
  unfold Raw.AddDynParamsToMsg.
  do 2 (no_usage_step; [no_usage_step|]).
  apply no_usage_AddDynParamsToMsg_loop.
Qed.

(** X17.  Each entry point throws its usage text exactly when help is asked
    for or the number of arguments is wrong (fewer than four or more than
    five for [addcvn], other than three for [removecvn] and [signchaindata],
    other than none for [getcvninfo]), and then before anything else: the
    state is untouched.  With the right number of arguments and no help
    asked, no path of the entry point ends with a usage text, whatever the
    arguments are. *)
Theorem usage_text_iff (E : Env) (K : Keys) (params : list UniValue)
    (fHelp : bool) (s : state) :
  let n := length params in
  let wrong (arity : bool) := fHelp || negb arity in
  usage_exactly "addcvn" (wrong ((4 <=? n)%nat && (n <=? 5)%nat))
    (Raw.addcvn E params fHelp) s /\
  usage_exactly "removecvn" (wrong (n =? 3)%nat)
    (Raw.removecvn E params fHelp) s /\
  usage_exactly "signchaindata" (wrong (n =? 3)%nat)
    (Raw.signchaindata E K params fHelp) s /\
  usage_exactly "getcvninfo" (wrong (n =? 0)%nat)
    (Raw.getcvninfo params fHelp) s.
Proof.
  cbv zeta. unfold usage_exactly. repeat split.
  - unfold Raw.addcvn.
    replace (fHelp || (length params <? 4)%nat || (5 <? length params)%nat)
      with (fHelp || negb ((4 <=? length params)%nat && (length params <=? 5)%nat)).
    2:{ destruct fHelp; [reflexivity|]. cbn [orb].
        destruct (Nat.leb_spec 4 (length params)),
                 (Nat.leb_spec (length params) 5),
                 (Nat.ltb_spec (length params) 4),
                 (Nat.ltb_spec 5 (length params)); cbn; solve [reflexivity | lia]. }
    destruct (fHelp || _); [reflexivity|].
    as_no_usage s.
    do 3 (no_usage_step; [no_usage_step|]).
    destruct (_ && _); [apply no_usage_raise; exact I|].
    no_usage_step; [no_usage_step|].
    do 3 (no_usage_step; [no_usage_step|]).
    no_usage_step.
    { destruct (Raw.at_index params 4); try apply no_usage_rret.
      destruct (negb _); [apply no_usage_AddDynParamsToMsg|apply no_usage_rret]. }
    destruct (is_empty _); [repeat no_usage_step|].
    no_usage_step; [apply no_usage_AddAdminSignatures|].
    destruct (negb _); [apply no_usage_rret|].
    no_usage_step; [no_usage_step|].
    destruct (IsInitialBlockDownload E); repeat no_usage_step.
  - unfold Raw.removecvn.
    destruct (fHelp || _); [reflexivity|].
    as_no_usage s.
    do 8 (no_usage_step; [no_usage_step|]).
    destruct (IsInitialBlockDownload E); [apply no_usage_rret|].
    destruct (is_empty _); [repeat no_usage_step|].
    no_usage_step; [apply no_usage_AddAdminSignatures|].
    repeat no_usage_step.
  - unfold Raw.signchaindata.
    destruct (fHelp || _); [reflexivity|].
    as_no_usage s.
    do 3 (no_usage_step; [no_usage_step|]).
    destruct (SetString K _); [|apply no_usage_rret].
    destruct (Sign K _ _); [|apply no_usage_rret].
    destruct (negb _); apply no_usage_rret.
  - unfold Raw.getcvninfo.
    destruct (fHelp || _); [reflexivity|].
    intros rpc'. discriminate.
Qed.

(** ** An addition that is accepted *)


